(** * The Excel-to-SoW parser of smartscope_react

    A shallow embedding of [parseExcelToSoW] (src/shared/schema.ts, lines
    545-639) and the properties of its result: the failure on an empty
    grid, the metadata scan, the chapter / subchapter scan and the
    fallback chapter; then of the in-memory storage (src/server/storage.ts)
    and of the routes that import a sheet, export a PDF, register and log
    in (src/shared/schema.ts, lines 126-197 and 474-527).

    Strings are JavaScript strings, that is sequences of UTF-16 code
    units; the regular expressions of the source are written with a small
    set of backtracking combinators whose list of results is ordered the
    way the JavaScript matcher tries them. *)

From Stdlib Require Import List NArith ZArith Bool String Ascii Lia.
From Stdlib Require DecimalNat.
Import ListNotations.

Set Implicit Arguments.

(** ** JavaScript strings *)

Module JS.

(** A string is the list of its UTF-16 code units. *)
Definition jsstring := list N.

(** An ASCII literal of the source as a JavaScript string. *)
Definition js (s : string) : jsstring :=
  map N_of_ascii (list_ascii_of_string s).

Definition in_range (lo hi c : N) : bool := (lo <=? c)%N && (c <=? hi)%N.

(** WhiteSpace and LineTerminator of ECMAScript: what [trim] strips and
    what the class \s matches. *)
Definition isWhiteSpace (c : N) : bool :=
  in_range 9 13 c || (c =? 32)%N || (c =? 160)%N || (c =? 5760)%N
  || in_range 8192 8202 c || (c =? 8232)%N || (c =? 8233)%N
  || (c =? 8239)%N || (c =? 8287)%N || (c =? 12288)%N || (c =? 65279)%N.

Definition isDigit (c : N) : bool := in_range 48 57 c.
Definition isUpper (c : N) : bool := in_range 65 90 c.
Definition isLower (c : N) : bool := in_range 97 122 c.
Definition isLetter (c : N) : bool := isUpper c || isLower c.

Fixpoint dropWhile (p : N -> bool) (s : jsstring) : jsstring :=
  match s with
  | [] => []
  | c :: t => if p c then dropWhile p t else s
  end.

Definition trimStart (s : jsstring) : jsstring := dropWhile isWhiteSpace s.
Definition trimEnd (s : jsstring) : jsstring :=
  rev (dropWhile isWhiteSpace (rev s)).

(** String.prototype.trim *)
Definition trim (s : jsstring) : jsstring := trimEnd (trimStart s).

(** String.prototype.toLowerCase, as far as the source observes it: the
    result is only searched for ASCII keywords.  ASCII capitals are
    lowered; of the code units outside ASCII only the two whose lower
    case form holds an ASCII letter are mapped (U+212A KELVIN SIGN to k,
    U+0130 to i followed by U+0307); the others, which lower to code
    units outside ASCII, are left as they are. *)
Definition lowerUnit (c : N) : jsstring :=
  if isUpper c then [(c + 32)%N]
  else if (c =? 8490)%N then [107%N]
  else if (c =? 304)%N then [105%N; 775%N]
  else [c].

Definition toLowerCase (s : jsstring) : jsstring := flat_map lowerUnit s.

Definition unit_eqb (a b : N) : bool := (a =? b)%N.

(** String.prototype.startsWith *)
Fixpoint startsWith (p s : jsstring) : bool :=
  match p, s with
  | [], _ => true
  | _ :: _, [] => false
  | a :: p', b :: s' => unit_eqb a b && startsWith p' s'
  end.

(** String.prototype.includes *)
Fixpoint includes (p s : jsstring) : bool :=
  startsWith p s ||
  match s with
  | [] => false
  | _ :: t => includes p t
  end.

(** Array.prototype.join on an array of strings. *)
Fixpoint join (sep : jsstring) (l : list jsstring) : jsstring :=
  match l with
  | [] => []
  | [x] => x
  | x :: t => x ++ sep ++ join sep t
  end.

Fixpoint digits_of_uint (u : Decimal.uint) : jsstring :=
  match u with
  | Decimal.Nil => []
  | Decimal.D0 u => 48%N :: digits_of_uint u
  | Decimal.D1 u => 49%N :: digits_of_uint u
  | Decimal.D2 u => 50%N :: digits_of_uint u
  | Decimal.D3 u => 51%N :: digits_of_uint u
  | Decimal.D4 u => 52%N :: digits_of_uint u
  | Decimal.D5 u => 53%N :: digits_of_uint u
  | Decimal.D6 u => 54%N :: digits_of_uint u
  | Decimal.D7 u => 55%N :: digits_of_uint u
  | Decimal.D8 u => 56%N :: digits_of_uint u
  | Decimal.D9 u => 57%N :: digits_of_uint u
  end.

(** String(n) for a counter: the decimal numeral of a natural number. *)
Definition String_nat (n : nat) : jsstring := digits_of_uint (Nat.to_uint n).

End JS.

Import JS.

(** ** Regular expressions

    A matcher maps the rest of the subject to the rests that remain after
    each way of matching, in the order in which the backtracking matcher of
    JavaScript tries them: the left alternative before the right one, a
    greedy quantifier's longest repetition first.  All patterns of the
    source are anchored at the start ([^], no [m] flag) and carry the [i]
    flag. *)

Module Re.

Definition matcher := jsstring -> list jsstring.

(** One code unit of a class. *)
Definition cls (p : N -> bool) : matcher :=
  fun s => match s with
           | c :: t => if p c then [t] else []
           | [] => []
           end.

(** Canonicalize of the [i] flag without the [u] flag: a code unit is
    upper-cased, except that a code unit outside ASCII is never mapped
    into ASCII.  The pattern characters of the source are ASCII or
    U+2022, which no other code unit is canonicalized to, so only the
    ASCII part is observed. *)
Definition canonicalize (c : N) : N := if isLower c then (c - 32)%N else c.

(** A pattern character under the [i] flag. *)
Definition chr (a : N) : matcher :=
  cls (fun c => (canonicalize c =? canonicalize a)%N).

Definition eps : matcher := fun s => [s].

Definition seq (m1 m2 : matcher) : matcher :=
  fun s => flat_map m2 (m1 s).

Definition alt (m1 m2 : matcher) : matcher :=
  fun s => m1 s ++ m2 s.

(** [m?], greedy. *)
Definition opt (m : matcher) : matcher := alt m eps.

(** [c*] for a class [c], greedy. *)
Fixpoint star (p : N -> bool) (s : jsstring) : list jsstring :=
  match s with
  | c :: t => if p c then star p t ++ [s] else [s]
  | [] => [[]]
  end.

(** [c+] for a class [c], greedy. *)
Definition plus (p : N -> bool) : matcher := seq (cls p) (star p).

(** A literal word under the [i] flag. *)
Fixpoint lit (w : jsstring) : matcher :=
  match w with
  | [] => eps
  | a :: w' => seq (chr a) (lit w')
  end.

(** [s.match(re)] used as a condition, for an anchored [re]. *)
Definition test (m : matcher) (s : jsstring) : bool :=
  match m s with
  | [] => false
  | _ :: _ => true
  end.

(** [s.replace(re, '')] for an anchored [re] without the [g] flag: the
    first match is cut off; without a match the subject is unchanged. *)
Definition replace_empty (m : matcher) (s : jsstring) : jsstring :=
  match m s with
  | [] => s
  | r :: _ => r
  end.

End Re.

(** ** The data model *)

(** A number cell, as the source observes it: its truth value (neither 0
    nor NaN) and its String() form. *)
Record jsnumber := { num_truthy : bool; num_text : jsstring }.

(** A cell of the grid ([any] in the source): a string, a number, or
    nothing (undefined, null, or an index beyond the row's length). *)
Inductive cell :=
| CText (s : jsstring)
| CNum (n : jsnumber)
| CEmpty.

Definition row := list cell.
Definition grid := list row.

Record subchapter := {
  sub_id : jsstring;
  sub_title : jsstring;
  sub_content : jsstring
}.

Record chapter := {
  id : jsstring;
  title : jsstring;
  content : jsstring;
  subchapters : list subchapter
}.

Record document := {
  doc_title : jsstring;
  doc_description : jsstring;
  doc_chapters : list chapter   (* content: { chapters } *)
}.

(** The only error the function throws: [new Error("Empty Excel file")]. *)
Inductive error := EmptyInputError.

Inductive result (A : Type) :=
| Ok (a : A)
| Throw (e : error).
Arguments Ok {A} a.
Arguments Throw {A} e.

(** ** Cell operations *)

(** [row[i]] *)
Definition cell_at (r : row) (i : nat) : cell := nth i r CEmpty.

(** ToBoolean of a cell, as in [if (row[0])] and [row[1] ? .. : ..]. *)
Definition truthy (c : cell) : bool :=
  match c with
  | CText [] => false
  | CText (_ :: _) => true
  | CNum n => num_truthy n
  | CEmpty => false
  end.

(** [String(c)].  Both uses in the source are guarded by the cell's truth
    value, so the case of an empty cell is never reached. *)
Definition String_cell (c : cell) : jsstring :=
  match c with
  | CText s => s
  | CNum n => num_text n
  | CEmpty => js "undefined"
  end.

(** The string an element contributes to [row.join(..)]: undefined and
    null give the empty string. *)
Definition join_text (c : cell) : jsstring :=
  match c with
  | CText s => s
  | CNum n => num_text n
  | CEmpty => []
  end.

(** ToBoolean of a string. *)
Definition nonempty (s : jsstring) : bool :=
  match s with [] => false | _ :: _ => true end.

(** ** The patterns and keyword tests of the source *)

(** [[a-z]] under the [i] flag: a code unit whose canonical form is the
    canonical form of a member of the class. *)
Definition azClass (c : N) : bool :=
  in_range (Re.canonicalize 97) (Re.canonicalize 122) (Re.canonicalize c).

Definition dot : N := 46.
Definition closeParen : N := 41.
Definition hyphen : N := 45.
Definition bullet : N := 8226.   (* U+2022 *)

(** An optional dot and white space: the tail of both alternatives of the
    chapter pattern. *)
Definition optDotSpaces : Re.matcher :=
  Re.seq (Re.opt (Re.chr dot)) (Re.star isWhiteSpace).

(** The pattern of line 580, anchored, with the [i] flag: an optional
    group of the word chapter and white space, then either digits or one
    letter of a-z, each followed by an optional dot and white space. *)
Definition chapterPattern : Re.matcher :=
  Re.seq (Re.opt (Re.seq (Re.lit (js "chapter")) (Re.star isWhiteSpace)))
         (Re.alt (Re.seq (Re.plus isDigit) optDotSpaces)
                 (Re.seq (Re.cls azClass) optDotSpaces)).

(** The group shared by the patterns of lines 602 and 605, four
    alternatives in this order: digits, a dot and digits; one letter of
    a-z and a closing parenthesis; the bullet U+2022; a hyphen. *)
Definition subchapterMark : Re.matcher :=
  Re.alt (Re.seq (Re.plus isDigit) (Re.seq (Re.chr dot) (Re.plus isDigit)))
         (Re.alt (Re.seq (Re.cls azClass) (Re.chr closeParen))
                 (Re.alt (Re.chr bullet) (Re.chr hyphen))).

(** The pattern of line 602, anchored, with the [i] flag: white space,
    then the group. *)
Definition subchapterPattern : Re.matcher :=
  Re.seq (Re.star isWhiteSpace) subchapterMark.

(** The pattern of line 605: the pattern of line 602 followed by white
    space. *)
Definition subchapterPrefix : Re.matcher :=
  Re.seq subchapterPattern (Re.star isWhiteSpace).

(** [s.toLowerCase().includes(k)] *)
Definition includes_ci (k : string) (s : jsstring) : bool :=
  includes (js k) (toLowerCase s).

(** The keyword part of the chapter condition (lines 581-585). *)
Definition hasChapterKeyword (cellValue : jsstring) : bool :=
  includes_ci "overview" cellValue
  || includes_ci "requirement" cellValue
  || includes_ci "deliverable" cellValue
  || includes_ci "timeline" cellValue
  || includes_ci "budget" cellValue.

(** The condition of line 580: is this row a new chapter? *)
Definition isChapterStart (cellValue : jsstring) : bool :=
  Re.test chapterPattern cellValue || hasChapterKeyword cellValue.

(** The condition of line 602: is this row a subchapter? *)
Definition isSubchapterStart (cellValue : jsstring) : bool :=
  Re.test subchapterPattern cellValue || startsWith (js "  ") cellValue.

(** [cellValue.replace(re, '')] with the pattern of line 605. *)
Definition stripSubchapterPrefix (cellValue : jsstring) : jsstring :=
  Re.replace_empty subchapterPrefix cellValue.

(** ** The metadata scan (lines 551-564) *)

Definition defaultTitle : jsstring := js "Imported SoW Document".
Definition defaultDescription : jsstring := js "Imported from Excel file".

(** [row[0] && typeof row[0] === 'string' && row[0].trim()] *)
Definition labelText (r : row) : option jsstring :=
  match cell_at r 0 with
  | CText s => if nonempty s && nonempty (trim s) then Some s else None
  | _ => None
  end.

(** [row[1] ? String(row[1]).trim() : old] *)
Definition valueOr (r : row) (old : jsstring) : jsstring :=
  if truthy (cell_at r 1) then trim (String_cell (cell_at r 1)) else old.

(** One iteration of the first loop, on the pair (title, description). *)
Definition meta_row (td : jsstring * jsstring) (r : row)
  : jsstring * jsstring :=
  let (t, d) := td in
  match labelText r with
  | Some s =>
      if includes_ci "title" s || includes_ci "project" s then
        (valueOr r t, d)
      else if includes_ci "description" s then
        (t, valueOr r d)
      else td
  | None => td
  end.

(** The first loop: rows 0 .. min(5, data.length) - 1. *)
Definition scanMetadata (data : grid) : jsstring * jsstring :=
  fold_left meta_row (firstn (Nat.min 5 (List.length data)) data)
            (defaultTitle, defaultDescription).

(** ** The body scan (lines 566-622) *)

(** The local variables of the second loop. *)
Record scan_state := {
  chapters : list chapter;
  currentChapter : option chapter;
  chapterCounter : nat;
  subChapterCounter : nat
}.

Definition initial_state : scan_state :=
  {| chapters := []; currentChapter := None;
     chapterCounter := 1; subChapterCounter := 1 |}.

(** [chapters.push(currentChapter)] under [if (currentChapter)]. *)
Definition flush (chs : list chapter) (cur : option chapter) : list chapter :=
  match cur with
  | Some c => chs ++ [c]
  | None => chs
  end.

(** [cellValue + (contentValue ? ': ' + contentValue : '')] *)
Definition contentLine (cellValue contentValue : jsstring) : jsstring :=
  cellValue ++ (if nonempty contentValue then js ": " ++ contentValue else []).

Definition newline : jsstring := [10%N].

(** One iteration of the second loop. *)
Definition scan_row (st : scan_state) (r : row) : scan_state :=
  if negb (truthy (cell_at r 0)) then st            (* continue *)
  else
    let cellValue := trim (String_cell (cell_at r 0)) in
    let contentValue :=
      if truthy (cell_at r 1) then trim (String_cell (cell_at r 1)) else [] in
    if isChapterStart cellValue then
      {| chapters := flush (chapters st) (currentChapter st);
         currentChapter :=
           Some {| id := String_nat (chapterCounter st);
                   title := cellValue;
                   content := contentValue;
                   subchapters := [] |};
         chapterCounter := S (chapterCounter st);
         subChapterCounter := 1 |}
    else
      match currentChapter st with
      | Some c =>
          if nonempty cellValue then
            if isSubchapterStart cellValue then
              {| chapters := chapters st;
                 currentChapter :=
                   Some {| id := id c; title := title c; content := content c;
                           subchapters :=
                             subchapters c ++
                             [ {| sub_id := id c ++ js "." ++
                                            String_nat (subChapterCounter st);
                                  sub_title := stripSubchapterPrefix cellValue;
                                  sub_content := contentValue |} ] |};
                 chapterCounter := chapterCounter st;
                 subChapterCounter := S (subChapterCounter st) |}
            else
              {| chapters := chapters st;
                 currentChapter :=
                   Some {| id := id c; title := title c;
                           content :=
                             if nonempty (content c)
                             then content c ++ newline ++
                                  contentLine cellValue contentValue
                             else contentLine cellValue contentValue;
                           subchapters := subchapters c |};
                 chapterCounter := chapterCounter st;
                 subChapterCounter := subChapterCounter st |}
          else st
      | None => st
      end.

(** The second loop, rows 1 .. data.length - 1. *)
Definition scanBody (data : grid) : scan_state :=
  fold_left scan_row (skipn 1 data) initial_state.

(** The chapters the scan has found once the last one is added
    (lines 620-622). *)
Definition scannedChapters (data : grid) : list chapter :=
  let st := scanBody data in flush (chapters st) (currentChapter st).

(** ** The fallback chapter (lines 625-632) *)

(** [data.slice(1).map(row => row.join(' ')).join('\n')] *)
Definition fallbackContent (data : grid) : jsstring :=
  join newline (map (fun r => join (js " ") (map join_text r)) (skipn 1 data)).

Definition fallbackChapter (data : grid) : chapter :=
  {| id := js "1"; title := js "Project Overview";
     content := fallbackContent data; subchapters := [] |}.

(** [if (chapters.length === 0) chapters.push(..)] *)
Definition withFallback (data : grid) (chs : list chapter) : list chapter :=
  match chs with
  | [] => [fallbackChapter data]
  | _ :: _ => chs
  end.

(** ** parseExcelToSoW *)

(** The argument is [None] when [data] is undefined or null. *)
Definition parseExcelToSoW (data : option grid) : result document :=
  match data with
  | None => Throw EmptyInputError
  | Some [] => Throw EmptyInputError
  | Some g =>
      let (t, d) := scanMetadata g in
      Ok {| doc_title := t; doc_description := d;
            doc_chapters := withFallback g (scannedChapters g) |}
  end.

(** ** The grids of the specification's scenarios *)

(** A text cell holding an ASCII literal. *)
Definition txt (s : string) : cell := CText (js s).

Definition grid_scenario1 : grid :=
  [ [txt "Header"; txt ""]; [txt "Title"; txt "My Project"];
    [txt "Overview"; txt "Intro text"]; [txt "1.1 Scope"; txt "In scope items"] ].

Definition grid_scenario3 : grid := [ [txt "H"]; [txt "random note"; txt "x"] ].

Definition grid_scenario5 : grid :=
  [ [txt "H"]; [txt "1. Plan"; txt "p"]; [txt "  sub note"; txt "s"];
    [txt "2. Build"; txt "b"] ].

(** A number cell, given by its truth value and its String() form. *)
Definition num (truth : bool) (text : string) : cell :=
  CNum {| num_truthy := truth; num_text := js text |}.

(** The number 0: falsy, and printed as one digit. *)
Definition zeroCell : cell := num false "0".

(** Number cells: 0 is falsy and its row is skipped; -12 is read as its
    text, which begins with a hyphen. *)
Definition grid_numbers : grid :=
  [ [txt "H"]; [zeroCell; txt "zero"]; [num true "-12"; txt "early"];
    [num true "7"]; [num true "-12"; num true "305"];
    [txt "   "; txt "blank"]; [CEmpty; txt "x"] ].

(** An indented row that begins with neither a letter nor a digit. *)
Definition grid_indented_note : grid :=
  [ [txt "H"]; [txt "1. Plan"; txt "p"]; [txt "  (note)"; txt "s"] ].

(** Chapter 1 gets two subchapters, a content line and a second chapter. *)
Definition grid_bullets : grid :=
  [ [txt "H"]; [txt "Budget"; txt "x"]; [txt "- item"; txt "y"];
    [CText [bullet; 32%N; 97%N]]; [txt "(note)"; txt "v"];
    [txt "2. Build"; txt "b"]; [txt "-last"] ].


(** ** Observations on one iteration of the body scan *)

(** [cellValue] of a row (line 577). *)
Definition cellValueOf (r : row) : jsstring := trim (String_cell (cell_at r 0)).

(** The iteration on [r] pushes a subchapter onto the open chapter (the
    branch of lines 603-607 is taken). *)
Definition pushesSubchapter (st : scan_state) (r : row) : Prop :=
  exists c sub,
    currentChapter st = Some c /\
    currentChapter (scan_row st r) =
      Some {| id := id c; title := title c; content := content c;
              subchapters := subchapters c ++ [sub] |}.

(** The iteration on [r] opens a new chapter titled by the row's cell 0
    (the branch of lines 586-599 is taken). *)
Definition opensChapter (st : scan_state) (r : row) : Prop :=
  exists body,
    scan_row st r =
      {| chapters := flush (chapters st) (currentChapter st);
         currentChapter :=
           Some {| id := String_nat (chapterCounter st);
                   title := cellValueOf r; content := body;
                   subchapters := [] |};
         chapterCounter := S (chapterCounter st);
         subChapterCounter := 1 |}.

(** The first code unit of a string is an ASCII letter or decimal digit. *)
Definition beginsAlnum (s : jsstring) : bool :=
  match s with
  | c :: _ => isLetter c || isDigit c
  | [] => false
  end.

(** The first code unit of a string is the bullet U+2022 or a hyphen. *)
Definition beginsBulletOrHyphen (s : jsstring) : bool :=
  match s with
  | c :: _ => (c =? bullet)%N || (c =? hyphen)%N
  | [] => false
  end.

(** ** Identifiers *)

(** The ids of a chapter list are "1", "2", ..., "N" in array order. *)
Definition chapterIdsSequential (chs : list chapter) : Prop :=
  map id chs = map String_nat (List.seq 1 (List.length chs)).

(** The ids of a chapter's subchapters are "<id>.1", "<id>.2", ... in
    array order. *)
Definition subchapterIdsSequential (c : chapter) : Prop :=
  map sub_id (subchapters c) =
  map (fun k => id c ++ js "." ++ String_nat k)
      (List.seq 1 (List.length (subchapters c))).

(** What every iteration of the body scan preserves: the chapters found so
    far, the open one included, are numbered in sequence, the chapter
    counter is one ahead of their number, and the subchapter counter is one
    ahead of the open chapter's subchapters. *)
Record scan_inv (st : scan_state) : Prop := {
  inv_ids :
    chapterIdsSequential (flush (chapters st) (currentChapter st));
  inv_counter :
    chapterCounter st =
    S (List.length (flush (chapters st) (currentChapter st)));
  inv_subs :
    Forall subchapterIdsSequential (flush (chapters st) (currentChapter st));
  inv_subcounter :
    forall c, currentChapter st = Some c ->
              subChapterCounter st = S (List.length (subchapters c))
}.

(** ** The metadata scan, row by row *)

(** The rows the first loop visits. *)
Definition metadataWindow (g : grid) : list row :=
  firstn (Nat.min 5 (List.length g)) g.

(** The value a metadata row supplies: [String(row[1]).trim()]. *)
Definition metaValue (r : row) : jsstring :=
  trim (String_cell (cell_at r 1)).

(** The row assigns [title]: cell 0 is a string that contains one of the
    keywords title and project, and cell 1 is truthy. *)
Definition setsTitle (r : row) : bool :=
  match cell_at r 0 with
  | CText s =>
      (includes_ci "title" s || includes_ci "project" s)
      && truthy (cell_at r 1)
  | _ => false
  end.

(** The row assigns [description]: cell 0 is a string that contains the
    keyword description and neither title nor project (the else branch of
    line 560), and cell 1 is truthy. *)
Definition setsDescription (r : row) : bool :=
  match cell_at r 0 with
  | CText s =>
      negb (includes_ci "title" s || includes_ci "project" s)
      && includes_ci "description" s
      && truthy (cell_at r 1)
  | _ => false
  end.

(** The last row of a list, in forward order, that satisfies [p]. *)
Definition lastMatching (p : row -> bool) (rows : list row) : option row :=
  find p (rev rows).

(** A row qualifies for the description by the keyword alone: cell 0 is a
    string that contains description and cell 1 is truthy. *)
Definition keywordDescriptionRow (r : row) : bool :=
  match cell_at r 0 with
  | CText s => includes_ci "description" s && truthy (cell_at r 1)
  | _ => false
  end.

(** The last row that qualifies by the keyword alone determines the
    description of the result. *)
Definition lastKeywordRowSetsDescription (g : grid) : Prop :=
  forall doc r,
    parseExcelToSoW (Some g) = Ok doc ->
    lastMatching keywordDescriptionRow (metadataWindow g) = Some r ->
    doc_description doc = metaValue r.

Definition grid_two_descriptions : grid :=
  [ [txt "Description"; txt "A"]; [txt "Project Description"; txt "B"] ].

Definition grid_two_titles : grid :=
  [ [txt "Title"; txt "First"]; [txt "Project name"; txt " Second "];
    [txt "description"; txt "D1"]; [txt "Title"; CEmpty];
    [txt "Description"; txt "D2"]; [txt "Title"; txt "Sixth row"] ].

(** ** Rows met while no chapter is open *)

(** The row gets past the guard on cell 0 and meets the chapter
    condition. *)
Definition startsChapter (r : row) : bool :=
  truthy (cell_at r 0) && isChapterStart (cellValueOf r).

(** No row of the list starts a chapter. *)
Definition noChapterIn (rows : list row) : bool :=
  forallb (fun x => negb (startsChapter x)) rows.

(** The line a row contributes to the fallback content: [row.join(' ')]. *)
Definition rowLine (r : row) : jsstring := join (js " ") (map join_text r).

(** A row [r] that matches the subchapter pattern and is met while no
    chapter is open (no body row before it starts one) contributes nothing
    to the chapters of the result: they are those of the grid without the
    row. *)
Definition droppedRowContributesNothing
  (h : row) (pre : list row) (r : row) (post : list row) : Prop :=
  noChapterIn pre = true ->
  startsChapter r = false ->
  isSubchapterStart (cellValueOf r) = true ->
  forall doc doc',
    parseExcelToSoW (Some (h :: pre ++ r :: post)) = Ok doc ->
    parseExcelToSoW (Some (h :: pre ++ post)) = Ok doc' ->
    doc_chapters doc = doc_chapters doc'.

(** [contentValue] of a row (line 578). *)
Definition contentValueOf (r : row) : jsstring :=
  if truthy (cell_at r 1) then trim (String_cell (cell_at r 1)) else [].

(** ** Further observations on the parser *)

(** Cell 0 of the row is a string that holds one of the three metadata
    keywords. *)
Definition hasMetadataKeyword (r : row) : bool :=
  match cell_at r 0 with
  | CText s =>
      includes_ci "title" s || includes_ci "project" s
      || includes_ci "description" s
  | _ => false
  end.

(** [l1] is an initial segment of [l2]. *)
Definition prefixOf {A : Type} (l1 l2 : list A) : Prop :=
  exists l, l2 = l1 ++ l.

(** * The in-memory storage (src/server/storage.ts)

    [MemStorage] keeps each kind of record in a JavaScript [Map] from the
    record's numeric id to the record, next to a counter for the next id.
    Modelled here are the users, the documents and the templates; the
    effort estimations and the chat sessions are kept by the same code
    over two further maps, which the methods below never touch.

    The methods are [async] without an [await] in their bodies: each runs
    to its end once called, so a method is a function from the storage to
    its result and the storage after it.  [new Date()] is the argument
    [now]. *)

(** A [Date], as its time value. *)
Definition Date := N.

(** ** Map *)

(** A [Map] with number keys: its entries in insertion order.  The keys
    are integers; NaN, which no key of the storage ever is, is not
    represented. *)
Definition jsmap (V : Type) := list (Z * V).

(** [m.get(k)] *)
Fixpoint map_get {V : Type} (m : jsmap V) (k : Z) : option V :=
  match m with
  | [] => None
  | (k', v) :: t => if (k' =? k)%Z then Some v else map_get t k
  end.

(** [m.set(k, v)]: the entry of an existing key keeps its place, a new key
    goes to the end. *)
Fixpoint map_set {V : Type} (m : jsmap V) (k : Z) (v : V) : jsmap V :=
  match m with
  | [] => [(k, v)]
  | (k', v') :: t =>
      if (k' =? k)%Z then (k, v) :: t else (k', v') :: map_set t k v
  end.

(** The map after [m.delete(k)]. *)
Fixpoint map_remove {V : Type} (m : jsmap V) (k : Z) : jsmap V :=
  match m with
  | [] => []
  | (k', v) :: t => if (k' =? k)%Z then t else (k', v) :: map_remove t k
  end.

(** The value of [m.delete(k)]: was there an entry? *)
Definition map_has {V : Type} (m : jsmap V) (k : Z) : bool :=
  match map_get m k with Some _ => true | None => false end.

(** [Array.from(m.values())] *)
Definition map_values {V : Type} (m : jsmap V) : list V := map snd m.

Definition map_keys {V : Type} (m : jsmap V) : list Z := map fst m.

(** [a === b] on strings. *)
Fixpoint string_eqb (a b : jsstring) : bool :=
  match a, b with
  | [], [] => true
  | x :: a', y :: b' => (x =? y)%N && string_eqb a' b'
  | _, _ => false
  end.

(** A property of [...updates]: present with a value, or absent. *)
Definition spread {A : Type} (update : option A) (old : A) : A :=
  match update with
  | Some v => v
  | None => old
  end.

(** ** Records *)

(** What a [content] value shows to the code that reads it: an object
    with an array [chapters] of chapters as the parser builds them, or a
    value without a truthy [chapters]. *)
Inductive jsonContent :=
| Chapters (chs : list chapter)
| NoChapters.

Record User := {
  user_id : Z;
  username : jsstring;
  email : jsstring;
  password : jsstring;
  role : option jsstring;           (* undefined when not given *)
  lastActive : option Date
}.

Record InsertUser := {
  new_username : jsstring;
  new_email : jsstring;
  new_password : jsstring;
  new_role : option jsstring
}.

(** [Partial<User>] *)
Record PartialUser := {
  set_user_id : option Z;
  set_username : option jsstring;
  set_email : option jsstring;
  set_password : option jsstring;
  set_role : option (option jsstring);
  set_lastActive : option (option Date)
}.

Record Document := {
  document_id : Z;
  document_title : jsstring;
  document_description : option jsstring;
  document_content : jsonContent;
  document_type : jsstring;
  document_status : option jsstring;
  authorId : Z;
  templateId : option Z;
  createdAt : option Date;
  updatedAt : option Date
}.

Record InsertDocument := {
  new_title : jsstring;
  new_description : option jsstring;
  new_content : jsonContent;
  new_type : jsstring;
  new_status : option jsstring;
  new_authorId : Z;
  new_templateId : option Z
}.

(** [Partial<Document>] *)
Record PartialDocument := {
  set_document_id : option Z;
  set_title : option jsstring;
  set_description : option (option jsstring);
  set_content : option jsonContent;
  set_type : option jsstring;
  set_status : option (option jsstring);
  set_authorId : option Z;
  set_templateId : option (option Z);
  set_createdAt : option (option Date);
  set_updatedAt : option (option Date)
}.

Record Template := {
  template_id : Z;
  template_name : jsstring;
  template_description : option jsstring;
  template_content : jsonContent;
  template_type : jsstring;
  template_authorId : Z;
  usageCount : option Z;            (* number | null *)
  template_createdAt : option Date
}.

Record InsertTemplate := {
  new_name : jsstring;
  new_template_description : option jsstring;
  new_template_content : jsonContent;
  new_template_type : jsstring;
  new_template_authorId : Z
}.

(** [Partial<Template>] *)
Record PartialTemplate := {
  set_template_id : option Z;
  set_name : option jsstring;
  set_template_description : option (option jsstring);
  set_template_content : option jsonContent;
  set_template_type : option jsstring;
  set_template_authorId : option Z;
  set_usageCount : option (option Z);
  set_template_createdAt : option (option Date)
}.

(** ** MemStorage *)

Record MemStorage := {
  users : jsmap User;
  documents : jsmap Document;
  templates : jsmap Template;
  currentUserId : Z;
  currentDocumentId : Z;
  currentTemplateId : Z
}.

(** *** User methods *)

Definition getUser (st : MemStorage) (id : Z) : option User :=
  map_get (users st) id.

Definition getUserByEmail (st : MemStorage) (e : jsstring) : option User :=
  find (fun user => string_eqb (email user) e) (map_values (users st)).

Definition getUserByUsername (st : MemStorage) (n : jsstring) : option User :=
  find (fun user => string_eqb (username user) n) (map_values (users st)).

Definition createUser (st : MemStorage) (insertUser : InsertUser) (now : Date)
  : User * MemStorage :=
  let id := currentUserId st in
  let user :=
    {| user_id := id;
       username := new_username insertUser;
       email := new_email insertUser;
       password := new_password insertUser;
       role := new_role insertUser;
       lastActive := Some now |} in
  (user,
   {| users := map_set (users st) id user;
      documents := documents st;
      templates := templates st;
      currentUserId := (currentUserId st + 1)%Z;
      currentDocumentId := currentDocumentId st;
      currentTemplateId := currentTemplateId st |}).

Definition updateUser (st : MemStorage) (id : Z) (updates : PartialUser)
  : option User * MemStorage :=
  match map_get (users st) id with
  | None => (None, st)
  | Some user =>
      let updatedUser :=
        {| user_id := spread (set_user_id updates) (user_id user);
           username := spread (set_username updates) (username user);
           email := spread (set_email updates) (email user);
           password := spread (set_password updates) (password user);
           role := spread (set_role updates) (role user);
           lastActive := spread (set_lastActive updates) (lastActive user) |} in
      (Some updatedUser,
       {| users := map_set (users st) id updatedUser;
          documents := documents st;
          templates := templates st;
          currentUserId := currentUserId st;
          currentDocumentId := currentDocumentId st;
          currentTemplateId := currentTemplateId st |})
  end.

Definition getAllUsers (st : MemStorage) : list User := map_values (users st).

Definition deleteUser (st : MemStorage) (id : Z) : bool * MemStorage :=
  (map_has (users st) id,
   {| users := map_remove (users st) id;
      documents := documents st;
      templates := templates st;
      currentUserId := currentUserId st;
      currentDocumentId := currentDocumentId st;
      currentTemplateId := currentTemplateId st |}).

(** The constructor: empty maps, the counters at 1, then the default admin
    user. *)
Definition newMemStorage (now : Date) : MemStorage :=
  snd (createUser
         {| users := []; documents := []; templates := [];
            currentUserId := 1; currentDocumentId := 1;
            currentTemplateId := 1 |}
         {| new_username := js "admin";
            new_email := js "admin@example.com";
            new_password := js "admin123";
            new_role := Some (js "admin") |}
         now).

(** *** Document methods *)

Definition getDocument (st : MemStorage) (id : Z) : option Document :=
  map_get (documents st) id.

Definition getDocumentsByAuthor (st : MemStorage) (a : Z) : list Document :=
  filter (fun doc => (authorId doc =? a)%Z) (map_values (documents st)).

Definition getAllDocuments (st : MemStorage) : list Document :=
  map_values (documents st).

Definition createDocument (st : MemStorage) (insertDocument : InsertDocument)
  (now : Date) : Document * MemStorage :=
  let id := currentDocumentId st in
  let document :=
    {| document_id := id;
       document_title := new_title insertDocument;
       document_description := new_description insertDocument;
       document_content := new_content insertDocument;
       document_type := new_type insertDocument;
       document_status := new_status insertDocument;
       authorId := new_authorId insertDocument;
       templateId := new_templateId insertDocument;
       createdAt := Some now;
       updatedAt := Some now |} in
  (document,
   {| users := users st;
      documents := map_set (documents st) id document;
      templates := templates st;
      currentUserId := currentUserId st;
      currentDocumentId := (currentDocumentId st + 1)%Z;
      currentTemplateId := currentTemplateId st |}).

Definition updateDocument (st : MemStorage) (id : Z)
  (updates : PartialDocument) (now : Date) : option Document * MemStorage :=
  match map_get (documents st) id with
  | None => (None, st)
  | Some document =>
      let updatedDocument :=
        {| document_id := spread (set_document_id updates) (document_id document);
           document_title := spread (set_title updates) (document_title document);
           document_description :=
             spread (set_description updates) (document_description document);
           document_content :=
             spread (set_content updates) (document_content document);
           document_type := spread (set_type updates) (document_type document);
           document_status :=
             spread (set_status updates) (document_status document);
           authorId := spread (set_authorId updates) (authorId document);
           templateId := spread (set_templateId updates) (templateId document);
           createdAt := spread (set_createdAt updates) (createdAt document);
           updatedAt := Some now |} in
      (Some updatedDocument,
       {| users := users st;
          documents := map_set (documents st) id updatedDocument;
          templates := templates st;
          currentUserId := currentUserId st;
          currentDocumentId := currentDocumentId st;
          currentTemplateId := currentTemplateId st |})
  end.

Definition deleteDocument (st : MemStorage) (id : Z) : bool * MemStorage :=
  (map_has (documents st) id,
   {| users := users st;
      documents := map_remove (documents st) id;
      templates := templates st;
      currentUserId := currentUserId st;
      currentDocumentId := currentDocumentId st;
      currentTemplateId := currentTemplateId st |}).

(** *** Template methods *)

Definition getTemplate (st : MemStorage) (id : Z) : option Template :=
  map_get (templates st) id.

Definition getAllTemplates (st : MemStorage) : list Template :=
  map_values (templates st).

Definition createTemplate (st : MemStorage) (insertTemplate : InsertTemplate)
  (now : Date) : Template * MemStorage :=
  let id := currentTemplateId st in
  let template :=
    {| template_id := id;
       template_name := new_name insertTemplate;
       template_description := new_template_description insertTemplate;
       template_content := new_template_content insertTemplate;
       template_type := new_template_type insertTemplate;
       template_authorId := new_template_authorId insertTemplate;
       usageCount := Some 0%Z;
       template_createdAt := Some now |} in
  (template,
   {| users := users st;
      documents := documents st;
      templates := map_set (templates st) id template;
      currentUserId := currentUserId st;
      currentDocumentId := currentDocumentId st;
      currentTemplateId := (currentTemplateId st + 1)%Z |}).

Definition updateTemplate (st : MemStorage) (id : Z)
  (updates : PartialTemplate) : option Template * MemStorage :=
  match map_get (templates st) id with
  | None => (None, st)
  | Some template =>
      let updatedTemplate :=
        {| template_id := spread (set_template_id updates) (template_id template);
           template_name := spread (set_name updates) (template_name template);
           template_description :=
             spread (set_template_description updates)
                    (template_description template);
           template_content :=
             spread (set_template_content updates) (template_content template);
           template_type :=
             spread (set_template_type updates) (template_type template);
           template_authorId :=
             spread (set_template_authorId updates) (template_authorId template);
           usageCount := spread (set_usageCount updates) (usageCount template);
           template_createdAt :=
             spread (set_template_createdAt updates)
                    (template_createdAt template) |} in
      (Some updatedTemplate,
       {| users := users st;
          documents := documents st;
          templates := map_set (templates st) id updatedTemplate;
          currentUserId := currentUserId st;
          currentDocumentId := currentDocumentId st;
          currentTemplateId := currentTemplateId st |})
  end.

Definition deleteTemplate (st : MemStorage) (id : Z) : bool * MemStorage :=
  (map_has (templates st) id,
   {| users := users st;
      documents := documents st;
      templates := map_remove (templates st) id;
      currentUserId := currentUserId st;
      currentDocumentId := currentDocumentId st;
      currentTemplateId := currentTemplateId st |}).

(** [(template.usageCount || 0) + 1]: null and 0 count as 0. *)
Definition nextUsage (count : option Z) : Z :=
  match count with
  | Some n => if (n =? 0)%Z then 1%Z else (n + 1)%Z
  | None => 1%Z
  end.

(** The stored object is changed in place and set again under its key. *)
Definition incrementTemplateUsage (st : MemStorage) (id : Z) : MemStorage :=
  match map_get (templates st) id with
  | Some template =>
      {| users := users st;
         documents := documents st;
         templates :=
           map_set (templates st) id
             {| template_id := template_id template;
                template_name := template_name template;
                template_description := template_description template;
                template_content := template_content template;
                template_type := template_type template;
                template_authorId := template_authorId template;
                usageCount := Some (nextUsage (usageCount template));
                template_createdAt := template_createdAt template |};
         currentUserId := currentUserId st;
         currentDocumentId := currentDocumentId st;
         currentTemplateId := currentTemplateId st |}
  | None => st
  end.

(** ** Sequences of storage calls *)

(** One call of a method that changes the storage. *)
Inductive storageCall :=
| CallCreateUser (insertUser : InsertUser) (now : Date)
| CallUpdateUser (id : Z) (updates : PartialUser)
| CallDeleteUser (id : Z)
| CallCreateDocument (insertDocument : InsertDocument) (now : Date)
| CallUpdateDocument (id : Z) (updates : PartialDocument) (now : Date)
| CallDeleteDocument (id : Z)
| CallCreateTemplate (insertTemplate : InsertTemplate) (now : Date)
| CallUpdateTemplate (id : Z) (updates : PartialTemplate)
| CallDeleteTemplate (id : Z)
| CallIncrementTemplateUsage (id : Z).

(** The storage after a call. *)
Definition afterCall (st : MemStorage) (call : storageCall) : MemStorage :=
  match call with
  | CallCreateUser u now => snd (createUser st u now)
  | CallUpdateUser id up => snd (updateUser st id up)
  | CallDeleteUser id => snd (deleteUser st id)
  | CallCreateDocument d now => snd (createDocument st d now)
  | CallUpdateDocument id up now => snd (updateDocument st id up now)
  | CallDeleteDocument id => snd (deleteDocument st id)
  | CallCreateTemplate t now => snd (createTemplate st t now)
  | CallUpdateTemplate id up => snd (updateTemplate st id up)
  | CallDeleteTemplate id => snd (deleteTemplate st id)
  | CallIncrementTemplateUsage id => incrementTemplateUsage st id
  end.

Definition afterCalls (st : MemStorage) (calls : list storageCall)
  : MemStorage :=
  fold_left afterCall calls st.

(** The storages the exported [storage] object can be in: the new storage
    after any sequence of calls. *)
Definition reachable (st : MemStorage) : Prop :=
  exists now calls, st = afterCalls (newMemStorage now) calls.

(** The keys of a map are distinct and lie from 1 up to, and not
    including, the counter of the next id. *)
Record table_inv {V : Type} (m : jsmap V) (next : Z) : Prop := {
  next_from_1 : (1 <= next)%Z;
  keys_below : Forall (fun k => (1 <= k < next)%Z) (map_keys m);
  keys_distinct : NoDup (map_keys m)
}.

Record storage_inv (st : MemStorage) : Prop := {
  inv_users : table_inv (users st) (currentUserId st);
  inv_documents : table_inv (documents st) (currentDocumentId st);
  inv_templates : table_inv (templates st) (currentTemplateId st)
}.

(** ** What a call does to one map *)

(** The map [after] is the map [before] with the record [r] added under
    the key [k], which was free. *)
Definition addedFresh {R : Type} (before after : jsmap R) (k : Z) (r : R)
  : Prop :=
  map_get before k = None /\
  map_get after k = Some r /\
  (forall k', k' <> k -> map_get after k' = map_get before k') /\
  map_values after = map_values before ++ [r].

(** The map [after] is the map [before] without the key [k], and [found]
    tells whether [before] had the key. *)
Definition removedKey {R : Type} (before after : jsmap R) (k : Z)
  (found : bool) : Prop :=
  found = map_has before k /\
  map_get after k = None /\
  (forall k', k' <> k -> map_get after k' = map_get before k').

(** A template as created, used [n] times. *)
Definition usedTemplate (t : Template) (n : nat) : Template :=
  {| template_id := template_id t;
     template_name := template_name t;
     template_description := template_description t;
     template_content := template_content t;
     template_type := template_type t;
     template_authorId := template_authorId t;
     usageCount := Some (Z.of_nat n);
     template_createdAt := template_createdAt t |}.

(** ** Sample records *)

Definition sampleDocument : InsertDocument :=
  {| new_title := js "Plan"; new_description := Some (js "A plan");
     new_content := Chapters []; new_type := js "sow";
     new_status := Some (js "draft"); new_authorId := 1;
     new_templateId := None |}.

Definition sampleTemplate : InsertTemplate :=
  {| new_name := js "Web project"; new_template_description := None;
     new_template_content := NoChapters; new_template_type := js "sow";
     new_template_authorId := 1 |}.

Definition sampleUser : InsertUser :=
  {| new_username := js "second"; new_email := js "admin@example.com";
     new_password := js "pw"; new_role := None |}.

(** Updates that carry nothing but another id. *)
Definition onlyDocumentId (j : Z) : PartialDocument :=
  {| set_document_id := Some j; set_title := None; set_description := None;
     set_content := None; set_type := None; set_status := None;
     set_authorId := None; set_templateId := None; set_createdAt := None;
     set_updatedAt := Some (Some 5%N) |}.

(** * Two routes of src/shared/schema.ts over the parser and the storage *)

(** What a handler answers: [res.json(a)], or [res.status(code).json({
    message })]. *)
Inductive response (A : Type) :=
| Json (a : A)
| Status (code : Z) (message : jsstring).
Arguments Json {A} a.
Arguments Status {A} code message.

(** ** POST /api/documents/import-excel (lines 159-197)

    The handler registered first for the path; it answers every request,
    so the second one (lines 437-471) is never run.  [hasFile] is
    [req.file], [authorId] is [parseInt(req.body.authorId)] ([None] for
    NaN).  Reading the file is the library's work: [sheet] is what the
    calls of lines 171-174 come to, the rows of the first sheet or
    something thrown. *)

(** What [XLSX.read] and [XLSX.utils.sheet_to_json] come to: the array of
    rows, or an exception with its [message] (empty when the thrown value
    has none). *)
Inductive sheetRead :=
| Rows (data : grid)
| ReadThrows (message : jsstring).

(** [error.message || "Failed to import Excel file"] *)
Definition importErrorMessage (message : jsstring) : jsstring :=
  if nonempty message then message else js "Failed to import Excel file".

Definition importExcel (hasFile : bool) (authorId : option Z)
  (sheet : sheetRead) (st : MemStorage) (now : Date)
  : response Document * MemStorage :=
  if negb hasFile then (Status 400 (js "No file uploaded"), st)
  else
    match authorId with
    | None => (Status 400 (js "Author ID is required"), st)
    | Some a =>
        if (a =? 0)%Z then (Status 400 (js "Author ID is required"), st)
        else
          match sheet with
          | ReadThrows message =>
              (Status 500 (importErrorMessage message), st)
          | Rows data =>
              match parseExcelToSoW (Some data) with
              | Throw EmptyInputError =>
                  (Status 500 (importErrorMessage (js "Empty Excel file")),
                   st)
              | Ok parsedData =>
                  let (document, st') :=
                    createDocument st
                      {| new_title := doc_title parsedData;
                         new_description := Some (doc_description parsedData);
                         new_content := Chapters (doc_chapters parsedData);
                         new_type := js "sow";
                         new_status := Some (js "draft");
                         new_authorId := a;
                         new_templateId := None |}
                      now in
                  (Json document, st')
              end
          end
    end.

(** ** POST /api/documents/:id/export-pdf (lines 474-527)

    The PDF is what the handler draws: the calls of [doc.text], each with
    the font size set just before it, in order. *)
Record textCall := {
  call_fontSize : Z;
  call_text : jsstring;
  call_x : Z;
  call_y : Z;
  call_width : option Z
}.

(** What is drawn for one subchapter at [yPosition]: its numbered title
    and, when its content is not empty, the content 25 further down. *)
Definition subchapterCalls (index subIndex : nat) (subchapter : subchapter)
  (yPosition : Z) : list textCall :=
  {| call_fontSize := 14;
     call_text := String_nat (index + 1) ++ js "." ++
                  String_nat (subIndex + 1) ++ js " " ++
                  sub_title subchapter;
     call_x := 120; call_y := yPosition; call_width := None |}
  :: (if nonempty (sub_content subchapter)
      then [ {| call_fontSize := 12; call_text := sub_content subchapter;
                call_x := 120; call_y := (yPosition + 25)%Z;
                call_width := Some 380%Z |} ]
      else []).

(** [yPosition] after one subchapter: 25 for the title, 40 for a content
    that is not empty. *)
Definition afterSubchapter (subchapter : subchapter) (yPosition : Z) : Z :=
  if nonempty (sub_content subchapter)
  then (yPosition + 25 + 40)%Z else (yPosition + 25)%Z.

(** The inner [forEach]: the subchapters of chapter [index], from
    [subIndex] on, drawn from [yPosition]; the calls and [yPosition]
    afterwards. *)
Fixpoint renderSubchapters (index subIndex : nat) (subs : list subchapter)
  (yPosition : Z) : list textCall * Z :=
  match subs with
  | [] => ([], yPosition)
  | subchapter :: rest =>
      let (calls, y') :=
        renderSubchapters index (S subIndex) rest
                          (afterSubchapter subchapter yPosition) in
      (subchapterCalls index subIndex subchapter yPosition ++ calls, y')
  end.

(** What is drawn for a chapter before its subchapters: its numbered
    title and, when its content is not empty, the content 30 further
    down. *)
Definition chapterCalls (index : nat) (chapter : chapter) (yPosition : Z)
  : list textCall :=
  {| call_fontSize := 16;
     call_text := String_nat (index + 1) ++ js ". " ++ title chapter;
     call_x := 100; call_y := yPosition; call_width := None |}
  :: (if nonempty (content chapter)
      then [ {| call_fontSize := 12; call_text := content chapter;
                call_x := 100; call_y := (yPosition + 30)%Z;
                call_width := Some 400%Z |} ]
      else []).

(** [yPosition] where the subchapters of a chapter begin: 30 for the
    title, 50 for a content that is not empty. *)
Definition afterChapterBody (chapter : chapter) (yPosition : Z) : Z :=
  if nonempty (content chapter)
  then (yPosition + 30 + 50)%Z else (yPosition + 30)%Z.

(** The outer [forEach]; a chapter ends 20 below its last subchapter. *)
Fixpoint renderChapters (index : nat) (chs : list chapter) (yPosition : Z)
  : list textCall * Z :=
  match chs with
  | [] => ([], yPosition)
  | chapter :: rest =>
      let (subCalls, y') :=
        renderSubchapters index 0 (subchapters chapter)
                          (afterChapterBody chapter yPosition) in
      let (calls, y'') := renderChapters (S index) rest (y' + 20)%Z in
      (chapterCalls index chapter yPosition ++ subCalls ++ calls, y'')
  end.

(** [document.description || ''] *)
Definition descriptionText (d : Document) : jsstring :=
  match document_description d with
  | Some s => s
  | None => []
  end.

Record pdf := {
  contentDisposition : jsstring;
  textCalls : list textCall
}.

(** The characters Node accepts in the value of a header: the tab, and
    the code units from U+0020 to U+007E and from U+0080 to U+00FF.
    [res.setHeader] throws on a value with any other. *)
Definition validHeaderChar (c : N) : bool :=
  (c =? 9)%N || in_range 32 126 c || in_range 128 255 c.

Definition validHeaderValue (s : jsstring) : bool :=
  forallb validHeaderChar s.

(** The value of the Content-Disposition header (line 485): the text
    attachment; filename= and, between double quotes, the title and
    .pdf. *)
Definition dispositionOf (documentTitle : jsstring) : jsstring :=
  js "attachment; filename=" ++ [34%N] ++
  documentTitle ++ js ".pdf" ++ [34%N].

(** The handler: 404 without a document; 500 from the catch of lines
    524-526 when setting the header throws, before anything is drawn;
    otherwise the PDF. *)
Definition exportPdf (st : MemStorage) (id : Z) : response pdf :=
  match getDocument st id with
  | None => Status 404 (js "Document not found")
  | Some document =>
      if negb (validHeaderValue (dispositionOf (document_title document)))
      then Status 500 (js "Failed to export PDF")
      else
        Json
          {| contentDisposition := dispositionOf (document_title document);
             textCalls :=
               {| call_fontSize := 20; call_text := document_title document;
                  call_x := 100; call_y := 100; call_width := None |}
               :: {| call_fontSize := 12;
                     call_text := descriptionText document;
                     call_x := 100; call_y := 130; call_width := None |}
               :: match document_content document with
                  | Chapters chs => fst (renderChapters 0 chs 170)
                  | NoChapters => []
                  end |}
  end.

(** The texts drawn at a font size, in order. *)
Definition textsOfSize (size : Z) (calls : list textCall) : list jsstring :=
  map call_text (filter (fun c => (call_fontSize c =? size)%Z) calls).

(** The heading that carries a chapter's own id, and the one that carries
    a subchapter's. *)
Definition chapterHeading (c : chapter) : jsstring :=
  id c ++ js ". " ++ title c.

Definition subchapterHeading (s : subchapter) : jsstring :=
  sub_id s ++ js " " ++ sub_title s.


(** What an answer of the import handler tells about the request and the
    storage after it. *)
Definition importOutcome (hasFile : bool) (authorId : option Z)
  (sheet : sheetRead) (st : MemStorage)
  (answer : response Document * MemStorage) : Prop :=
  match answer with
  | (Status code message, st') =>
      st' = st /\
      ((code = 400%Z /\ message = js "No file uploaded" /\ hasFile = false) \/
       (code = 400%Z /\ message = js "Author ID is required" /\
        hasFile = true /\ (authorId = None \/ authorId = Some 0%Z)) \/
       (code = 500%Z /\ message = js "Empty Excel file" /\
        hasFile = true /\ (exists a, authorId = Some a /\ a <> 0%Z) /\
        sheet = Rows []) \/
       (code = 500%Z /\ hasFile = true /\
        (exists a, authorId = Some a /\ a <> 0%Z) /\
        exists thrownMessage,
          sheet = ReadThrows thrownMessage /\
          message = if nonempty thrownMessage then thrownMessage
                    else js "Failed to import Excel file"))
  | (Json doc, st') =>
      hasFile = true /\
      (exists a, authorId = Some a /\ a <> 0%Z) /\
      (exists r g, sheet = Rows (r :: g)) /\
      getAllDocuments st' = getAllDocuments st ++ [doc]
  end.

(** ** POST /api/auth/login and /api/auth/register (lines 126-156) *)

(** [{ ...user, password: undefined }] as it is sent: [res.json] leaves a
    property that is undefined out. *)
Record sentUser := {
  sent_id : Z;
  sent_username : jsstring;
  sent_email : jsstring;
  sent_role : option jsstring;
  sent_lastActive : option Date
}.

Definition withoutPassword (user : User) : sentUser :=
  {| sent_id := user_id user;
     sent_username := username user;
     sent_email := email user;
     sent_role := role user;
     sent_lastActive := lastActive user |}.

(** [{ lastActive: new Date() }] *)
Definition onlyLastActive (now : Date) : PartialUser :=
  {| set_user_id := None; set_username := None; set_email := None;
     set_password := None; set_role := None;
     set_lastActive := Some (Some now) |}.

(** The login handler, for a body whose [email] and [password] are
    strings. *)
Definition login (st : MemStorage) (e pw : jsstring) (now : Date)
  : response sentUser * MemStorage :=
  match getUserByEmail st e with
  | None => (Status 401 (js "Invalid credentials"), st)
  | Some user =>
      if negb (string_eqb (password user) pw)
      then (Status 401 (js "Invalid credentials"), st)
      else
        (Json (withoutPassword user),
         snd (updateUser st (user_id user) (onlyLastActive now)))
  end.

(** The register handler; [userData] is [None] when
    [insertUserSchema.parse(req.body)] throws. *)
Definition register (st : MemStorage) (userData : option InsertUser)
  (now : Date) : response sentUser * MemStorage :=
  match userData with
  | None => (Status 400 (js "Invalid user data"), st)
  | Some u =>
      match getUserByEmail st (new_email u) with
      | Some _ => (Status 400 (js "User already exists"), st)
      | None =>
          let (user, st') := createUser st u now in
          (Json (withoutPassword user), st')
      end
  end.

(** * Grids with rows that are not arrays

    The parameter of [parseExcelToSoW] is declared [any[][]], yet both
    loops test each row before they read it ([row &&] on line 557, [!row]
    on line 574), while the fallback of line 629 calls [row.join] on every
    row from index 1 on.  Here an element of [data] may be null or
    undefined ([None]); the function above is this one on the grids all
    of whose rows are arrays. *)













(** Every body row whose trimmed cell 0 begins with an ASCII letter or
    digit opens a chapter. *)
Definition alnumRowAlwaysOpensChapter : Prop :=
  forall st r, beginsAlnum (cellValueOf r) = true -> opensChapter st r.
(** ** Facts about strings *)

Unset Implicit Arguments.

Ltac to_prop :=
  unfold azClass, Re.canonicalize, dot, closeParen, hyphen, bullet in *;
  unfold isLetter in *;
  unfold isUpper, isLower, isDigit, isWhiteSpace, unit_eqb in *;
  unfold in_range in *;
  repeat match goal with
         | H : context [if ?b then _ else _] |- _ => destruct b eqn:?
         | |- context [if ?b then _ else _] => destruct b eqn:?
         end;
  repeat (progress
            rewrite ?andb_true_iff, ?orb_true_iff, ?andb_false_iff,
                    ?orb_false_iff, ?N.leb_le, ?N.leb_gt, ?N.eqb_eq,
                    ?N.eqb_neq in * ).

Lemma dropWhile_suffix (p : N -> bool) (s : jsstring) :
  exists l, s = l ++ dropWhile p s /\ Forall (fun c => p c = true) l.
Proof.
  induction s as [|c t [l [Hl Hall]]]; simpl.
  - exists []; split; [reflexivity | constructor].
  - destruct (p c) eqn:Hc.
    + exists (c :: l); split; [simpl; congruence | constructor; assumption].
    + exists []; split; [reflexivity | constructor].
Qed.

Lemma dropWhile_head (p : N -> bool) (s : jsstring) c t :
  dropWhile p s = c :: t -> p c = false.
Proof.
  induction s as [|a s IH]; simpl; [discriminate|].
  destruct (p a) eqn:Ha; [assumption|].
  intros E; injection E as -> _; assumption.
Qed.

(** The trimmed string is what is left of [trimStart s] once a run of
    white space is cut from its end. *)
Lemma trim_prefix (s : jsstring) :
  exists w, trimStart s = trim s ++ w /\ Forall (fun c => isWhiteSpace c = true) w.
Proof.
  unfold trim, trimEnd.
  destruct (dropWhile_suffix isWhiteSpace (rev (trimStart s))) as [l [Hl Hall]].
  exists (rev l). split.
  - rewrite <- rev_app_distr, <- Hl, rev_involutive. reflexivity.
  - apply Forall_rev. assumption.
Qed.

(** A trimmed string does not begin with white space. *)
Lemma trim_head (s : jsstring) c t :
  trim s = c :: t -> isWhiteSpace c = false.
Proof.
  intros E. destruct (trim_prefix s) as [w [Hw _]].
  rewrite E in Hw. simpl in Hw.
  exact (dropWhile_head isWhiteSpace s _ _ Hw).
Qed.

(** A string of white space only is trimmed to the empty string, and
    conversely. *)
Lemma trim_nil_whitespace (s : jsstring) :
  trim s = [] -> Forall (fun c => isWhiteSpace c = true) s.
Proof.
  intros E.
  destruct (trim_prefix s) as [w [Hw Hall]]. rewrite E in Hw. simpl in Hw.
  destruct (dropWhile_suffix isWhiteSpace s) as [l [Hl Hl']].
  rewrite Hl. apply Forall_app. split; [assumption|].
  unfold trimStart in Hw. rewrite Hw. assumption.
Qed.

Lemma startsWith_two_spaces_trim (s : jsstring) :
  startsWith (js "  ") (trim s) = false.
Proof.
  destruct (trim s) as [|c t] eqn:E; [reflexivity|].
  apply trim_head in E.
  assert (Hc : unit_eqb 32 c = false).
  { destruct (unit_eqb 32 c) eqn:Hc; [|reflexivity].
    apply N.eqb_eq in Hc. subst c. vm_compute in E. discriminate. }
  change (startsWith (js "  ") (c :: t))
    with (unit_eqb 32 c && startsWith (js " ") t).
  rewrite Hc. reflexivity.
Qed.

(** ** Facts about the patterns *)

Lemma test_true (m : Re.matcher) (s : jsstring) :
  Re.test m s = true <-> m s <> [].
Proof.
  unfold Re.test. destruct (m s); split; congruence.
Qed.

Lemma star_nonempty (p : N -> bool) (s : jsstring) : Re.star p s <> [].
Proof.
  destruct s as [|c t]; simpl; [discriminate|].
  destruct (p c); [|discriminate].
  intros E. apply app_eq_nil in E. destruct E; discriminate.
Qed.

Lemma star_stuck (p : N -> bool) c t :
  p c = false -> Re.star p (c :: t) = [c :: t].
Proof. intros H. simpl. rewrite H. reflexivity. Qed.

Lemma seq_last (m1 m2 : Re.matcher) s l x :
  m1 s = l ++ [x] -> Re.seq m1 m2 s = flat_map m2 l ++ m2 x.
Proof.
  intros E. unfold Re.seq. rewrite E, flat_map_app. simpl.
  rewrite app_nil_r. reflexivity.
Qed.

Lemma opt_last (m : Re.matcher) s : Re.opt m s = m s ++ [s].
Proof. reflexivity. Qed.

Lemma app_nonempty_r (A : Type) (l l' : list A) : l' <> [] -> l ++ l' <> [].
Proof. destruct l; simpl; [auto | discriminate]. Qed.

Lemma flat_map_nonempty (A B : Type) (f : A -> list B) (l : list A) :
  l <> [] -> (forall x, f x <> []) -> flat_map f l <> [].
Proof.
  destruct l as [|a l]; [congruence|]. intros _ Hf. simpl.
  specialize (Hf a). destruct (f a); [congruence | discriminate].
Qed.

Lemma optDotSpaces_nonempty (s : jsstring) : optDotSpaces s <> [].
Proof.
  unfold optDotSpaces. rewrite (seq_last _ _ _ _ _ (opt_last _ _)).
  apply app_nonempty_r, star_nonempty.
Qed.

Lemma azClass_isLetter (c : N) : azClass c = isLetter c.
Proof.
  unfold azClass, isLetter, isUpper, isLower, in_range, Re.canonicalize.
  change (if isLower 97 then (97 - 32)%N else 97%N) with 65%N.
  change (if isLower 122 then (122 - 32)%N else 122%N) with 90%N.
  unfold isLower, in_range.
  destruct ((97 <=? c)%N && (c <=? 122)%N) eqn:E.
  - rewrite orb_true_r. to_prop. lia.
  - rewrite orb_false_r. reflexivity.
Qed.

(** The chapter pattern matches every string that begins with an ASCII
    letter or digit: the word chapter, the dot and the white space are all
    optional. *)
Lemma chapterPattern_alnum (s : jsstring) :
  beginsAlnum s = true -> Re.test chapterPattern s = true.
Proof.
  destruct s as [|c t]; simpl; [discriminate|]. intros H.
  apply test_true. unfold chapterPattern.
  rewrite (seq_last _ _ _ _ _ (opt_last _ _)).
  apply app_nonempty_r. unfold Re.alt.
  destruct (isDigit c) eqn:Hd.
  - intros E. apply app_eq_nil in E. destruct E as [E _]. revert E.
    unfold Re.seq at 1. apply flat_map_nonempty;
      [|apply optDotSpaces_nonempty].
    unfold Re.plus, Re.seq. simpl. rewrite Hd. simpl. rewrite app_nil_r.
    apply star_nonempty.
  - rewrite orb_false_r in H. apply app_nonempty_r.
    unfold Re.seq. simpl. rewrite azClass_isLetter, H. simpl.
    rewrite app_nil_r. apply optDotSpaces_nonempty.
Qed.

Lemma chr_inv (a c : N) t :
  Re.chr a (c :: t) <> [] -> Re.canonicalize c = Re.canonicalize a.
Proof.
  unfold Re.chr, Re.cls.
  destruct (Re.canonicalize c =? Re.canonicalize a)%N eqn:E.
  - intros _. apply N.eqb_eq. assumption.
  - intros H. exfalso. apply H. reflexivity.
Qed.

(** The group of the subchapter pattern needs a digit, a letter, the
    bullet or a hyphen as first code unit. *)
Lemma subchapterMark_head (s : jsstring) :
  subchapterMark s <> [] ->
  beginsAlnum s = true \/ beginsBulletOrHyphen s = true.
Proof.
  destruct s as [|c t]; [intros H; exfalso; apply H; reflexivity|].
  unfold subchapterMark, Re.alt. intros H.
  destruct (isDigit c) eqn:Hd; [left; simpl; rewrite Hd; apply orb_true_r|].
  destruct (azClass c) eqn:Hl;
    [left; simpl; rewrite <- azClass_isLetter, Hl; reflexivity|].
  right.
  assert (E1 : Re.seq (Re.plus isDigit)
                 (Re.seq (Re.chr dot) (Re.plus isDigit)) (c :: t) = []).
  { unfold Re.seq, Re.plus, Re.seq, Re.cls. rewrite Hd. reflexivity. }
  assert (E2 : Re.seq (Re.cls azClass) (Re.chr closeParen) (c :: t) = []).
  { unfold Re.seq, Re.cls. rewrite Hl. reflexivity. }
  rewrite E1, E2 in H. cbn [app] in H.
  destruct (Re.chr bullet (c :: t)) eqn:Hb.
  - cbn [app] in H. apply chr_inv in H. simpl.
    apply orb_true_iff. right. apply N.eqb_eq.
    clear - H. to_prop; lia.
  - assert (Hb' : Re.chr bullet (c :: t) <> []) by congruence.
    apply chr_inv in Hb'. simpl.
    apply orb_true_iff. left. apply N.eqb_eq.
    clear - Hb'. to_prop; lia.
Qed.

(** On a trimmed cell the subchapter condition holds only for a first code
    unit that the mark group accepts. *)
Lemma isSubchapterStart_trimmed (s : jsstring) :
  isSubchapterStart (trim s) = true -> subchapterMark (trim s) <> [].
Proof.
  unfold isSubchapterStart. rewrite startsWith_two_spaces_trim, orb_false_r.
  intros H. apply test_true in H. unfold subchapterPattern, Re.seq in H.
  destruct (trim s) as [|c t] eqn:E.
  - simpl in H. congruence.
  - rewrite (star_stuck _ _ _ (trim_head _ _ _ E)) in H. simpl in H.
    rewrite app_nil_r in H. assumption.
Qed.

Lemma self_app_singleton (A : Type) (l : list A) (x : A) : l <> l ++ [x].
Proof.
  intros E. apply (f_equal (@List.length A)) in E.
  rewrite length_app in E. simpl in E. lia.
Qed.

Lemma scan_row_chapter (st : scan_state) (r : row) :
  truthy (cell_at r 0) = true ->
  isChapterStart (cellValueOf r) = true ->
  opensChapter st r.
Proof.
  intros Ht Hc. unfold opensChapter, scan_row.
  fold (cellValueOf r). rewrite Ht, Hc. simpl. eexists. reflexivity.
Qed.

(** When an iteration pushes a subchapter, the row passed the guard of
    line 575, failed the chapter condition and met the subchapter one. *)
Lemma pushesSubchapter_inv (st : scan_state) (r : row) :
  pushesSubchapter st r ->
  truthy (cell_at r 0) = true /\
  isChapterStart (cellValueOf r) = false /\
  isSubchapterStart (cellValueOf r) = true.
Proof.
  intros (c & sub & Hc & Hp). unfold scan_row in Hp.
  fold (cellValueOf r) in Hp.
  destruct (truthy (cell_at r 0)); simpl in Hp.
  - destruct (isChapterStart (cellValueOf r)); simpl in Hp.
    + exfalso. injection Hp as _ _ _ Hs.
      destruct (subchapters c); discriminate.
    + rewrite Hc in Hp.
      destruct (nonempty (cellValueOf r)).
      * destruct (isSubchapterStart (cellValueOf r)); [auto|].
        exfalso. simpl in Hp. injection Hp as _ Hs.
        exact (self_app_singleton _ _ _ Hs).
      * exfalso. rewrite Hc in Hp. injection Hp as Hs.
        apply (f_equal subchapters) in Hs. simpl in Hs.
        exact (self_app_singleton _ _ _ Hs).
  - exfalso. rewrite Hc in Hp. injection Hp as Hs.
    apply (f_equal subchapters) in Hs. simpl in Hs.
    exact (self_app_singleton _ _ _ Hs).
Qed.

(** ** The scenarios of the specification, evaluated *)

(** C2: on the grid of scenario 1 the title is My Project, but the scan
    yields three chapters without subchapters: the rows Title, Overview and
    1.1 Scope each begin with a letter or digit and so each opens a
    chapter. *)
Theorem scenario1_yields_three_chapters :
  parseExcelToSoW (Some grid_scenario1) =
    Ok {| doc_title := js "My Project";
          doc_description := js "Imported from Excel file";
          doc_chapters :=
            [ {| id := js "1"; title := js "Title";
                 content := js "My Project"; subchapters := [] |};
              {| id := js "2"; title := js "Overview";
                 content := js "Intro text"; subchapters := [] |};
              {| id := js "3"; title := js "1.1 Scope";
                 content := js "In scope items"; subchapters := [] |} ] |}.
Proof. vm_compute. reflexivity. Qed.

(** C3: on the grid of scenario 5 the indented row opens a chapter of its
    own, so no chapter has a subchapter; an indented row that fails the
    chapter condition is added to the content of the open chapter; and the
    test for two leading spaces, made on the trimmed cell, never holds. *)
Theorem scenario5_indented_row_is_no_subchapter :
  parseExcelToSoW (Some grid_scenario5) =
    Ok {| doc_title := defaultTitle;
          doc_description := defaultDescription;
          doc_chapters :=
            [ {| id := js "1"; title := js "1. Plan";
                 content := js "p"; subchapters := [] |};
              {| id := js "2"; title := js "sub note";
                 content := js "s"; subchapters := [] |};
              {| id := js "3"; title := js "2. Build";
                 content := js "b"; subchapters := [] |} ] |}
  /\ scannedChapters grid_indented_note =
       [ {| id := js "1"; title := js "1. Plan";
            content := js "p" ++ newline ++ js "(note): s";
            subchapters := [] |} ]
  /\ forall r : row, startsWith (js "  ") (cellValueOf r) = false.
Proof.
  split; [vm_compute; reflexivity|].
  split; [vm_compute; reflexivity|].
  intros r. apply startsWith_two_spaces_trim.
Qed.

(** C4: on the grid of scenario 3 the row random note begins with a letter
    and opens chapter 1; the fallback chapter is not produced. *)
Theorem scenario3_yields_scanned_chapter :
  parseExcelToSoW (Some grid_scenario3) =
    Ok {| doc_title := defaultTitle;
          doc_description := defaultDescription;
          doc_chapters :=
            [ {| id := js "1"; title := js "random note";
                 content := js "x"; subchapters := [] |} ] |}
  /\ scannedChapters grid_scenario3 <> [].
Proof.
  split; [vm_compute; reflexivity | vm_compute; discriminate].
Qed.

(** ** The chapter list is never empty *)

Lemma withFallback_nonempty (g : grid) (chs : list chapter) :
  withFallback g chs <> [].
Proof. destruct chs; discriminate. Qed.

(** C5: for every grid with at least one row the result's chapter list is
    not empty: it is the list the scan found when that has a chapter, and
    the single fallback chapter otherwise. *)
Theorem chapters_nonempty (r : row) (g : grid) :
  exists doc,
    parseExcelToSoW (Some (r :: g)) = Ok doc /\
    doc_chapters doc <> [] /\
    (doc_chapters doc = scannedChapters (r :: g) \/
     scannedChapters (r :: g) = [] /\
     doc_chapters doc = [fallbackChapter (r :: g)]).
Proof.
  unfold parseExcelToSoW.
  destruct (scanMetadata (r :: g)) as [t d].
  eexists. split; [reflexivity|]. simpl.
  split; [apply withFallback_nonempty|].
  destruct (scannedChapters (r :: g)) eqn:E; simpl; auto.
Qed.

(** ** Rows that begin with a letter or a digit *)

(** C10: a cell value that begins with an ASCII letter or digit passes the
    chapter pattern, so a row that gets past the guard on cell 0 with such
    a trimmed cell 0 always opens a new chapter; a row is pushed as a
    subchapter only when a chapter is open, its trimmed cell 0 begins with
    the bullet or a hyphen, and it holds none of the five chapter
    keywords. *)
Theorem alnum_opens_chapter_subchapter_needs_mark :
  (forall s, beginsAlnum s = true ->
     Re.test chapterPattern s = true /\ isChapterStart s = true) /\
  (forall st r, truthy (cell_at r 0) = true ->
     beginsAlnum (cellValueOf r) = true -> opensChapter st r) /\
  (forall st r, pushesSubchapter st r ->
     currentChapter st <> None /\
     beginsBulletOrHyphen (cellValueOf r) = true /\
     hasChapterKeyword (cellValueOf r) = false).
Proof.
  assert (A : forall s, beginsAlnum s = true ->
     Re.test chapterPattern s = true /\ isChapterStart s = true).
  { intros s H. apply chapterPattern_alnum in H.
    unfold isChapterStart. rewrite H. auto. }
  split; [exact A|]. split.
  - intros st r Ht Hb. apply scan_row_chapter; [assumption|].
    apply A. assumption.
  - intros st r Hp.
    assert (Ho : currentChapter st <> None).
    { destruct Hp as (c & _ & Hc & _). congruence. }
    apply pushesSubchapter_inv in Hp. destruct Hp as (_ & Hc & Hs).
    split; [assumption|].
    unfold isChapterStart in Hc. apply orb_false_iff in Hc.
    destruct Hc as [Hre Hk]. split; [|assumption].
    apply isSubchapterStart_trimmed in Hs.
    apply subchapterMark_head in Hs. destruct Hs as [Hs|Hs]; [|assumption].
    apply chapterPattern_alnum in Hs.
    unfold cellValueOf in *. congruence.
Qed.

Lemma alnum_opens_chapter_subchapter_needs_mark_witness :
  opensChapter initial_state [txt "random note"; txt "x"] /\
  beginsBulletOrHyphen
    (cellValueOf [txt "- item"; txt "y"]) = true.
Proof.
  split.
  - apply (proj1 (proj2 alnum_opens_chapter_subchapter_needs_mark));
      reflexivity.
  - apply (proj2 (proj2 alnum_opens_chapter_subchapter_needs_mark)
             (scan_row initial_state [txt "Budget"; txt "x"])
             [txt "- item"; txt "y"]).
    eexists _, _. split; vm_compute; reflexivity.
Defined.

(** ** Chapter and subchapter ids *)

Lemma chapterIds_snoc (chs : list chapter) (c : chapter) :
  chapterIdsSequential chs ->
  id c = String_nat (S (List.length chs)) ->
  chapterIdsSequential (chs ++ [c]).
Proof.
  unfold chapterIdsSequential. intros H Hc.
  rewrite map_app, length_app, H. simpl.
  rewrite Nat.add_1_r, seq_S, map_app, Hc. reflexivity.
Qed.

Lemma chapterIds_replace_last (chs : list chapter) (c c' : chapter) :
  id c' = id c ->
  chapterIdsSequential (chs ++ [c]) -> chapterIdsSequential (chs ++ [c']).
Proof.
  unfold chapterIdsSequential. intros E.
  rewrite !map_app, !length_app. simpl. rewrite E. auto.
Qed.

Lemma subchapterIds_push (c : chapter) (sub : subchapter) :
  subchapterIdsSequential c ->
  sub_id sub =
    id c ++ js "." ++ String_nat (S (List.length (subchapters c))) ->
  subchapterIdsSequential
    {| id := id c; title := title c; content := content c;
       subchapters := subchapters c ++ [sub] |}.
Proof.
  unfold subchapterIdsSequential. simpl. intros H Hs.
  rewrite map_app, length_app, H. simpl.
  rewrite Nat.add_1_r, seq_S, map_app, Hs. reflexivity.
Qed.

Lemma scan_inv_initial : scan_inv initial_state.
Proof.
  split; simpl.
  - reflexivity.
  - reflexivity.
  - constructor.
  - discriminate.
Qed.

Lemma scan_row_inv (st : scan_state) (r : row) :
  scan_inv st -> scan_inv (scan_row st r).
Proof.
  intros [Hids Hcnt Hsubs Hsc]. unfold scan_row.
  destruct (truthy (cell_at r 0)); simpl; [|split; assumption].
  destruct (isChapterStart _).
  - (* a new chapter *)
    split; simpl.
    + apply chapterIds_snoc; [assumption|]. simpl. congruence.
    + rewrite length_app. simpl. lia.
    + apply Forall_app. split; [assumption|].
      constructor; [reflexivity | constructor].
    + intros c E. injection E as <-. reflexivity.
  - destruct (currentChapter st) as [c|] eqn:Hc; [|split; rewrite ?Hc; assumption].
    simpl in *. apply Forall_app in Hsubs. destruct Hsubs as [Hs1 Hs2].
    inversion Hs2 as [|? ? Hsc' _]; subst.
    specialize (Hsc c eq_refl).
    destruct (nonempty _); [|split; rewrite ?Hc; simpl; auto].
    2:{ apply Forall_app; split; [assumption | constructor; auto]. }
    2:{ intros c0 E. injection E as <-. assumption. }
    destruct (isSubchapterStart _).
    + (* a subchapter is pushed *)
      split; simpl.
      * revert Hids. apply chapterIds_replace_last. reflexivity.
      * rewrite length_app in *. simpl in *. assumption.
      * apply Forall_app. split; [assumption|].
        constructor; [|constructor].
        apply subchapterIds_push; [assumption|]. simpl. congruence.
      * intros c0 E. injection E as <-. simpl.
        rewrite length_app. simpl. lia.
    + (* a line of content is added *)
      split; simpl.
      * revert Hids. apply chapterIds_replace_last. reflexivity.
      * rewrite length_app in *. simpl in *. assumption.
      * apply Forall_app. split; [assumption|].
        constructor; [|constructor]. exact Hsc'.
      * intros c0 E. injection E as <-. simpl. assumption.
Qed.

Lemma fold_scan_inv (rows : list row) (st : scan_state) :
  scan_inv st -> scan_inv (fold_left scan_row rows st).
Proof.
  revert st. induction rows as [|r rows IH]; simpl; [auto|].
  intros st H. apply IH, scan_row_inv, H.
Qed.

Lemma scanBody_inv (g : grid) : scan_inv (scanBody g).
Proof. apply fold_scan_inv, scan_inv_initial. Qed.

(** C6: when the chapters of the result come from the scan, their ids are
    "1", "2", ..., "N" in array order, and in each chapter the ids of the
    subchapters are "<chapterId>.1", "<chapterId>.2", ... in array order,
    the numbering starting again at 1 in every chapter. *)
Theorem scanned_ids_sequential (g : grid) :
  scannedChapters g <> [] ->
  exists doc,
    parseExcelToSoW (Some g) = Ok doc /\
    doc_chapters doc = scannedChapters g /\
    chapterIdsSequential (doc_chapters doc) /\
    Forall subchapterIdsSequential (doc_chapters doc) /\
    (forall st r, startsChapter r = true ->
                  subChapterCounter (scan_row st r) = 1).
Proof.
  intros Hne.
  assert (Hreset : forall st r, startsChapter r = true ->
                                subChapterCounter (scan_row st r) = 1).
  { intros st r H. apply andb_true_iff in H. destruct H as [Ht Hc].
    destruct (scan_row_chapter st r Ht Hc) as [body ->]. reflexivity. }
  destruct g as [|r g]; [exfalso; apply Hne; reflexivity|].
  unfold parseExcelToSoW. destruct (scanMetadata (r :: g)) as [t d].
  eexists. split; [reflexivity|]. simpl.
  assert (E : withFallback (r :: g) (scannedChapters (r :: g)) =
              scannedChapters (r :: g)).
  { destruct (scannedChapters (r :: g)); [congruence | reflexivity]. }
  rewrite E. split; [reflexivity|].
  destruct (scanBody_inv (r :: g)) as [Hids _ Hsubs _].
  repeat split; assumption.
Qed.

Lemma scanned_ids_sequential_witness :
  exists doc,
    parseExcelToSoW (Some grid_bullets) = Ok doc /\
    doc_chapters doc = scannedChapters grid_bullets /\
    chapterIdsSequential (doc_chapters doc) /\
    Forall subchapterIdsSequential (doc_chapters doc) /\
    (forall st r, startsChapter r = true ->
                  subChapterCounter (scan_row st r) = 1).
Proof.
  apply (scanned_ids_sequential grid_bullets).
  vm_compute. discriminate.
Defined.

(** The scan of [grid_bullets]: two chapters, the first with two
    subchapters and a line of content, the second with one subchapter. *)
Example scannedChapters_grid_bullets :
  scannedChapters grid_bullets =
    [ {| id := js "1"; title := js "Budget";
         content := js "x" ++ newline ++ js "(note): v";
         subchapters :=
           [ {| sub_id := js "1.1"; sub_title := js "item";
                sub_content := js "y" |};
             {| sub_id := js "1.2"; sub_title := js "a";
                sub_content := [] |} ] |};
      {| id := js "2"; title := js "2. Build"; content := js "b";
         subchapters :=
           [ {| sub_id := js "2.1"; sub_title := js "last";
                sub_content := [] |} ] |} ].
Proof. vm_compute. reflexivity. Qed.

(** The scan of [grid_numbers]: the rows of the number 0, of the blank
    string and of the empty cell are skipped, the row of -12 is dropped
    while no chapter is open and is a subchapter once chapter 7 is. *)
Example scannedChapters_grid_numbers :
  scannedChapters grid_numbers =
    [ {| id := js "1"; title := js "7"; content := [];
         subchapters :=
           [ {| sub_id := js "1.1"; sub_title := js "12";
                sub_content := js "305" |} ] |} ].
Proof. vm_compute. reflexivity. Qed.

(** ** The metadata scan *)

Lemma includes_In (c : N) (k s : jsstring) :
  includes (c :: k) s = true -> In c s.
Proof.
  induction s as [|a s IH]; simpl; [discriminate|].
  intros H. apply orb_true_iff in H. destruct H as [H|H].
  - apply andb_true_iff in H. destruct H as [H _].
    apply N.eqb_eq in H. left. congruence.
  - right. apply IH. destruct s; assumption.
Qed.

Lemma lowerUnit_whitespace (c : N) :
  isWhiteSpace c = true -> lowerUnit c = [c].
Proof.
  intros H. unfold lowerUnit.
  destruct (isUpper c) eqn:Hu; [exfalso; to_prop; lia|].
  destruct (c =? 8490)%N eqn:H1; [exfalso; to_prop; lia|].
  destruct (c =? 304)%N eqn:H2; [exfalso; to_prop; lia|].
  reflexivity.
Qed.

Lemma toLowerCase_whitespace (s : jsstring) :
  Forall (fun c => isWhiteSpace c = true) s -> toLowerCase s = s.
Proof.
  induction 1 as [|c s Hc _ IH]; [reflexivity|].
  unfold toLowerCase in *. simpl. rewrite IH, (lowerUnit_whitespace _ Hc).
  reflexivity.
Qed.

(** A cell that contains a keyword is not blank. *)
Lemma includes_ci_nonblank (k : string) (c : N) (k' s : jsstring) :
  js k = c :: k' -> isWhiteSpace c = false ->
  includes_ci k s = true -> nonempty s && nonempty (trim s) = true.
Proof.
  intros Hk Hc H. unfold includes_ci in H. rewrite Hk in H.
  destruct (trim s) as [|a t] eqn:E.
  - exfalso. apply trim_nil_whitespace in E.
    rewrite (toLowerCase_whitespace _ E) in H. apply includes_In in H.
    rewrite Forall_forall in E. apply E in H. congruence.
  - destruct s; [discriminate E | reflexivity].
Qed.

Lemma blank_has_no_keyword (s : jsstring) :
  nonempty s && nonempty (trim s) = false ->
  includes_ci "title" s = false /\ includes_ci "project" s = false /\
  includes_ci "description" s = false.
Proof.
  intros H.
  repeat split;
    match goal with
    | |- includes_ci ?k s = false =>
        destruct (includes_ci k s) eqn:E; [|reflexivity];
        eapply includes_ci_nonblank in E;
        [congruence | reflexivity | reflexivity]
    end.
Qed.

(** One iteration of the first loop assigns the title when the row sets
    it, the description when the row sets it, and nothing else. *)
Lemma meta_row_spec (t d : jsstring) (r : row) :
  meta_row (t, d) r =
  (if setsTitle r then metaValue r else t,
   if setsDescription r then metaValue r else d).
Proof.
  unfold meta_row, labelText, setsTitle, setsDescription, valueOr, metaValue.
  destruct (cell_at r 0) as [s| |]; try reflexivity.
  destruct (nonempty s && nonempty (trim s)) eqn:Hb.
  - destruct (includes_ci "title" s || includes_ci "project" s); simpl.
    + destruct (truthy (cell_at r 1)); reflexivity.
    + destruct (includes_ci "description" s); simpl; [|reflexivity].
      destruct (truthy (cell_at r 1)); reflexivity.
  - destruct (blank_has_no_keyword _ Hb) as (-> & -> & ->). reflexivity.
Qed.

Lemma lastMatching_snoc (p : row -> bool) (rows : list row) (r : row) :
  lastMatching p (rows ++ [r]) = if p r then Some r else lastMatching p rows.
Proof.
  unfold lastMatching. rewrite rev_app_distr. reflexivity.
Qed.

Lemma fold_meta_row_last (rows : list row) (t d : jsstring) :
  fold_left meta_row rows (t, d) =
  (match lastMatching setsTitle rows with
   | Some r => metaValue r
   | None => t
   end,
   match lastMatching setsDescription rows with
   | Some r => metaValue r
   | None => d
   end).
Proof.
  induction rows as [|r rows IH] using rev_ind; [reflexivity|].
  rewrite fold_left_app, IH. cbn [fold_left]. rewrite meta_row_spec.
  rewrite !lastMatching_snoc.
  destruct (setsTitle r), (setsDescription r); reflexivity.
Qed.

(** C7, as the code has it: the title of the result is the value of the
    last row, among rows 0 .. min(5, rowCount) - 1, whose cell 0 is a
    string containing title or project and whose cell 1 is truthy; the
    description is the value of the last such row whose cell 0 contains
    description and neither title nor project; without such a row the
    default stays. *)
Theorem last_metadata_row_wins (r0 : row) (g : grid) :
  exists chs,
    parseExcelToSoW (Some (r0 :: g)) =
      Ok {| doc_title :=
              match lastMatching setsTitle (metadataWindow (r0 :: g)) with
              | Some r => metaValue r
              | None => defaultTitle
              end;
            doc_description :=
              match lastMatching setsDescription
                      (metadataWindow (r0 :: g)) with
              | Some r => metaValue r
              | None => defaultDescription
              end;
            doc_chapters := chs |}.
Proof.
  unfold parseExcelToSoW, scanMetadata.
  fold (metadataWindow (r0 :: g)). rewrite fold_meta_row_last.
  eexists. reflexivity.
Qed.

(** Of the six rows of [grid_two_titles] the first five are scanned: the
    second row gives the title (the fourth has no value, the sixth is out
    of the window) and the fifth the description. *)
Example scanMetadata_grid_two_titles :
  scanMetadata grid_two_titles = (js "Second", js "D2").
Proof. vm_compute. reflexivity. Qed.

(** C7, counterexample to the claim as stated: in the grid with the rows
    Description / A and Project Description / B, the last row whose cell 0
    contains description and whose cell 1 is non-empty is the second one,
    yet the description of the result is A (the second row assigns the
    title). *)
Lemma last_keyword_description_row_does_not_win :
  ~ lastKeywordRowSetsDescription grid_two_descriptions.
Proof.
  intros H.
  specialize (H _ [txt "Project Description"; txt "B"] eq_refl eq_refl).
  vm_compute in H. discriminate.
Qed.

(** ** Rows met while no chapter is open *)

Lemma scan_row_no_chapter (st : scan_state) (r : row) :
  currentChapter st = None -> startsChapter r = false -> scan_row st r = st.
Proof.
  intros Hc Hr. unfold scan_row, startsChapter in *.
  fold (cellValueOf r).
  destruct (truthy (cell_at r 0)); simpl in *; [|reflexivity].
  rewrite Hr, Hc. reflexivity.
Qed.

Lemma fold_scan_no_chapter (rows : list row) (st : scan_state) :
  currentChapter st = None -> noChapterIn rows = true ->
  fold_left scan_row rows st = st.
Proof.
  induction rows as [|r rows IH]; simpl; [reflexivity|].
  intros Hc H. apply andb_true_iff in H. destruct H as [Hr Hrows].
  apply negb_true_iff in Hr.
  rewrite (scan_row_no_chapter _ _ Hc Hr). apply IH; assumption.
Qed.

(** C8, as the code has it: a row that fails the chapter condition (in
    particular a row matching the subchapter pattern) and is met while no
    chapter is open leaves the scan as it is, so it is added to no chapter
    and the chapters found by the scan are those found without the row;
    when the scan finds no chapter at all, the row's cells are one line of
    the content of the fallback chapter. *)
Theorem row_without_open_chapter_is_dropped
  (h r : row) (pre post : list row) :
  noChapterIn pre = true ->
  startsChapter r = false ->
  let st := fold_left scan_row pre initial_state in
  currentChapter st = None /\
  scan_row st r = st /\
  scannedChapters (h :: pre ++ r :: post) = scannedChapters (h :: pre ++ post)
  /\ (scannedChapters (h :: pre ++ r :: post) = [] ->
      exists doc,
        parseExcelToSoW (Some (h :: pre ++ r :: post)) = Ok doc /\
        doc_chapters doc =
          [ {| id := js "1"; title := js "Project Overview";
               content :=
                 join newline
                   (map rowLine pre ++ rowLine r :: map rowLine post);
               subchapters := [] |} ]).
Proof.
  intros Hpre Hr st.
  assert (Hst : st = initial_state)
    by (apply fold_scan_no_chapter; [reflexivity | assumption]).
  assert (Hstep : scan_row st r = st)
    by (apply scan_row_no_chapter; [rewrite Hst; reflexivity | assumption]).
  split; [rewrite Hst; reflexivity|]. split; [assumption|]. split.
  - unfold scannedChapters, scanBody. simpl.
    rewrite !fold_left_app. simpl. fold st. rewrite Hstep. reflexivity.
  - intros Hnone. unfold parseExcelToSoW.
    destruct (scanMetadata (h :: pre ++ r :: post)) as [t d].
    eexists. split; [reflexivity|]. simpl. rewrite Hnone. simpl.
    unfold fallbackChapter, fallbackContent. simpl.
    rewrite map_app. reflexivity.
Qed.

Lemma row_without_open_chapter_is_dropped_witness :
  scannedChapters
    ([txt "H"] :: [[txt "(intro)"]] ++ [txt "- item"; txt "x"]
       :: [[txt "Budget"; txt "b"]]) =
  scannedChapters
    ([txt "H"] :: [[txt "(intro)"]] ++ [[txt "Budget"; txt "b"]]).
Proof.
  apply (row_without_open_chapter_is_dropped
           [txt "H"] [txt "- item"; txt "x"] [[txt "(intro)"]]
           [[txt "Budget"; txt "b"]]); reflexivity.
Defined.

(** C8, counterexample to the claim as stated: in the grid with the rows
    H and - item / x, the second row matches the subchapter pattern while
    no chapter is open, and it is the content of the fallback chapter: the
    chapters of the result differ from those of the grid without the
    row. *)
Lemma dropped_row_reaches_fallback :
  ~ droppedRowContributesNothing [txt "H"] [] [txt "- item"; txt "x"] [].
Proof.
  intros H.
  specialize (H eq_refl eq_refl eq_refl _ _ eq_refl eq_refl).
  vm_compute in H. discriminate.
Qed.

(** ** The chapter condition, exactly *)

Lemma lit_head (a : N) (w s : jsstring) :
  Re.lit (a :: w) s <> [] ->
  exists c t, s = c :: t /\ Re.canonicalize c = Re.canonicalize a.
Proof.
  simpl. unfold Re.seq. intros H.
  destruct s as [|c t].
  - exfalso. apply H. reflexivity.
  - exists c, t. split; [reflexivity|]. apply (chr_inv a c t).
    intros E. rewrite E in H. apply H. reflexivity.
Qed.

Lemma flat_map_nonempty_inv (A B : Type) (f : A -> list B) (l : list A) :
  flat_map f l <> [] -> l <> [].
Proof. destruct l; simpl; congruence. Qed.

Lemma chapterPattern_inv (s : jsstring) :
  chapterPattern s <> [] -> beginsAlnum s = true.
Proof.
  unfold chapterPattern.
  rewrite (seq_last _ _ _ _ _ (opt_last _ _)). intros H.
  destruct (flat_map
              (Re.alt (Re.seq (Re.plus isDigit) optDotSpaces)
                      (Re.seq (Re.cls azClass) optDotSpaces))
              (Re.seq (Re.lit (js "chapter")) (Re.star isWhiteSpace) s))
    eqn:Hpre.
  - (* without the word chapter *)
    cbn [app] in H. destruct s as [|c t]; [exfalso; apply H; reflexivity|].
    simpl. rewrite <- azClass_isLetter.
    destruct (isDigit c) eqn:Hd; [apply orb_true_r|].
    destruct (azClass c) eqn:Hl; [reflexivity|].
    exfalso. apply H. unfold Re.alt, Re.seq, Re.plus, Re.seq, Re.cls.
    rewrite Hd, Hl. reflexivity.
  - (* the word chapter begins with a letter *)
    assert (Hne : Re.seq (Re.lit (js "chapter")) (Re.star isWhiteSpace) s
                  <> []).
    { eapply flat_map_nonempty_inv. rewrite Hpre. discriminate. }
    unfold Re.seq in Hne. apply flat_map_nonempty_inv in Hne.
    apply lit_head in Hne. destruct Hne as (c & t & -> & Hc).
    simpl. apply orb_true_iff. left. clear - Hc.
    change (Re.canonicalize (N_of_ascii "c")) with 67%N in Hc.
    to_prop; lia.
Qed.

Lemma chapterPattern_test (s : jsstring) :
  Re.test chapterPattern s = beginsAlnum s.
Proof.
  destruct (beginsAlnum s) eqn:Hb.
  - apply chapterPattern_alnum. assumption.
  - destruct (Re.test chapterPattern s) eqn:Ht; [|reflexivity].
    apply test_true, chapterPattern_inv in Ht. congruence.
Qed.

(** X1: the chapter condition of line 580 holds exactly when the cell value
    begins with an ASCII letter or digit or contains one of the five
    keywords; the pattern alone matches exactly the strings that begin
    with an ASCII letter or digit. *)
Theorem isChapterStart_exactly (s : jsstring) :
  Re.test chapterPattern s = beginsAlnum s /\
  isChapterStart s = beginsAlnum s || hasChapterKeyword s.
Proof.
  split; [apply chapterPattern_test|].
  unfold isChapterStart. rewrite chapterPattern_test. reflexivity.
Qed.

(** ** The subchapter branch, exactly *)

Lemma star_hd (p : N -> bool) (s : jsstring) :
  exists l, Re.star p s = dropWhile p s :: l.
Proof.
  induction s as [|c t [l IH]]; simpl.
  - exists []. reflexivity.
  - destruct (p c).
    + rewrite IH. exists (l ++ [c :: t]). reflexivity.
    + exists []. reflexivity.
Qed.

Lemma subchapterPattern_mark (m : N) (rest : jsstring) :
  m = bullet \/ m = hyphen -> subchapterPattern (m :: rest) = [rest].
Proof. intros [-> | ->]; reflexivity. Qed.

Lemma stripSubchapterPrefix_mark (m : N) (rest : jsstring) :
  m = bullet \/ m = hyphen ->
  stripSubchapterPrefix (m :: rest) = trimStart rest.
Proof.
  intros Hm. unfold stripSubchapterPrefix, Re.replace_empty, subchapterPrefix.
  unfold Re.seq at 1. rewrite (subchapterPattern_mark _ _ Hm). simpl.
  destruct (star_hd isWhiteSpace rest) as [l ->]. reflexivity.
Qed.

(** X2: while a chapter is open, a row whose trimmed cell 0 begins with the
    bullet or a hyphen and holds no chapter keyword is pushed as a
    subchapter: its id is the chapter's id, a dot and the subchapter
    counter, its title is the cell value without the mark and the white
    space after it, its content is the trimmed cell 1; the counter goes up
    by one and nothing else changes. *)
Theorem marked_row_pushes_subchapter
  (st : scan_state) (r : row) (c : chapter) (m : N) (rest : jsstring) :
  truthy (cell_at r 0) = true ->
  currentChapter st = Some c ->
  cellValueOf r = m :: rest ->
  m = bullet \/ m = hyphen ->
  hasChapterKeyword (cellValueOf r) = false ->
  scan_row st r =
    {| chapters := chapters st;
       currentChapter :=
         Some {| id := id c; title := title c; content := content c;
                 subchapters :=
                   subchapters c ++
                   [ {| sub_id := id c ++ js "." ++
                                  String_nat (subChapterCounter st);
                        sub_title := trimStart rest;
                        sub_content := contentValueOf r |} ] |};
       chapterCounter := chapterCounter st;
       subChapterCounter := S (subChapterCounter st) |}.
Proof.
  intros Ht Hc Hv Hm Hk.
  assert (Hch : isChapterStart (cellValueOf r) = false).
  { unfold isChapterStart. rewrite chapterPattern_test, Hk, Hv.
    destruct Hm as [-> | ->]; reflexivity. }
  assert (Hsub : isSubchapterStart (cellValueOf r) = true).
  { unfold isSubchapterStart, Re.test.
    rewrite Hv, (subchapterPattern_mark _ _ Hm). reflexivity. }
  unfold scan_row. fold (cellValueOf r). fold (contentValueOf r).
  rewrite Ht, Hch, Hc. cbn [negb].
  rewrite Hsub. rewrite Hv at 1. cbn [nonempty].
  rewrite Hv, (stripSubchapterPrefix_mark _ _ Hm). reflexivity.
Qed.

Lemma marked_row_pushes_subchapter_witness :
  scan_row (scan_row initial_state [txt "Budget"; txt "x"])
           [txt "  -  item "; txt " y "] =
    {| chapters := [];
       currentChapter :=
         Some {| id := js "1"; title := js "Budget"; content := js "x";
                 subchapters :=
                   [ {| sub_id := js "1.1"; sub_title := js "item";
                        sub_content := js "y" |} ] |};
       chapterCounter := 2;
       subChapterCounter := 2 |}.
Proof.
  exact (marked_row_pushes_subchapter
           (scan_row initial_state [txt "Budget"; txt "x"])
           [txt "  -  item "; txt " y "]
           {| id := js "1"; title := js "Budget"; content := js "x";
              subchapters := [] |}
           hyphen (js "  item")
           eq_refl eq_refl eq_refl (or_intror eq_refl) eq_refl).
Defined.

(** ** One chapter for each chapter row *)

Lemma scan_row_titles (st : scan_state) (r : row) :
  map title (flush (chapters (scan_row st r))
                   (currentChapter (scan_row st r))) =
  map title (flush (chapters st) (currentChapter st)) ++
  (if startsChapter r then [cellValueOf r] else []).
Proof.
  unfold scan_row, startsChapter. fold (cellValueOf r).
  destruct (truthy (cell_at r 0)); simpl; [|rewrite app_nil_r; reflexivity].
  destruct (isChapterStart (cellValueOf r)); simpl.
  - rewrite map_app. reflexivity.
  - rewrite app_nil_r.
    destruct (currentChapter st) as [c|] eqn:Hc; [|rewrite Hc; reflexivity].
    destruct (nonempty (cellValueOf r)); [|rewrite Hc; reflexivity].
    destruct (isSubchapterStart (cellValueOf r)); simpl;
      rewrite !map_app; reflexivity.
Qed.

Lemma fold_scan_titles (rows : list row) (st : scan_state) :
  map title (flush (chapters (fold_left scan_row rows st))
                   (currentChapter (fold_left scan_row rows st))) =
  map title (flush (chapters st) (currentChapter st)) ++
  map cellValueOf (filter startsChapter rows).
Proof.
  revert st. induction rows as [|r rows IH]; intros st; simpl.
  - rewrite app_nil_r. reflexivity.
  - rewrite IH, scan_row_titles, <- app_assoc.
    destruct (startsChapter r); reflexivity.
Qed.

(** X3: the scan yields one chapter for each body row that gets past the
    guard on cell 0 and meets the chapter condition, in row order, and the
    chapter's title is the trimmed cell 0 of its row; rows of any other
    kind add no chapter. *)
Theorem scanned_titles_are_chapter_rows (g : grid) :
  map title (scannedChapters g) =
    map cellValueOf (filter startsChapter (skipn 1 g)) /\
  List.length (scannedChapters g) =
    List.length (filter startsChapter (skipn 1 g)).
Proof.
  assert (E : map title (scannedChapters g) =
              map cellValueOf (filter startsChapter (skipn 1 g))).
  { unfold scannedChapters, scanBody. rewrite fold_scan_titles.
    reflexivity. }
  split; [assumption|].
  apply (f_equal (@List.length jsstring)) in E.
  rewrite !length_map in E. assumption.
Qed.

Lemma filter_nil_noChapterIn (rows : list row) :
  noChapterIn rows = true <-> filter startsChapter rows = [].
Proof.
  unfold noChapterIn. induction rows as [|r rows IH]; simpl.
  - split; reflexivity.
  - destruct (startsChapter r); simpl.
    + split; discriminate.
    + assumption.
Qed.

Lemma scannedChapters_nil (h : row) (body : list row) :
  scannedChapters (h :: body) = [] <-> noChapterIn body = true.
Proof.
  rewrite filter_nil_noChapterIn.
  assert (E : map title (scannedChapters (h :: body)) =
              map cellValueOf (filter startsChapter body)).
  { unfold scannedChapters, scanBody. rewrite fold_scan_titles.
    reflexivity. }
  split; intros H.
  - rewrite H in E. simpl in E.
    destruct (filter startsChapter body); [reflexivity | discriminate].
  - rewrite H in E. simpl in E.
    destruct (scannedChapters (h :: body)); [reflexivity | discriminate].
Qed.

(** X4: the fallback chapter Project Overview is returned exactly when no
    body row meets the chapter condition; otherwise the result holds the
    scanned chapters and no fallback. *)
Theorem fallback_iff_no_chapter_row (h : row) (body : list row) :
  exists doc,
    parseExcelToSoW (Some (h :: body)) = Ok doc /\
    doc_chapters doc =
      if noChapterIn body
      then [ {| id := js "1"; title := js "Project Overview";
                content := join newline (map rowLine body);
                subchapters := [] |} ]
      else scannedChapters (h :: body).
Proof.
  unfold parseExcelToSoW. destruct (scanMetadata (h :: body)) as [t d].
  eexists. split; [reflexivity|]. simpl.
  destruct (noChapterIn body) eqn:Hn.
  - apply (proj2 (scannedChapters_nil h body)) in Hn. rewrite Hn.
    reflexivity.
  - destruct (scannedChapters (h :: body)) eqn:E; [|reflexivity].
    apply (proj1 (scannedChapters_nil h body)) in E. congruence.
Qed.

(** ** The rows the metadata scan reads *)

Lemma firstn_min_length (A : Type) (n : nat) (l : list A) :
  firstn (Nat.min n (List.length l)) l = firstn n l.
Proof.
  revert l. induction n as [|n IH]; intros [|a l]; simpl; try reflexivity.
  rewrite IH. reflexivity.
Qed.

Lemma metadataWindow_app (g more : grid) :
  5 <= List.length g -> metadataWindow (g ++ more) = metadataWindow g.
Proof.
  intros H. unfold metadataWindow. rewrite !firstn_min_length, firstn_app.
  replace (5 - List.length g) with 0 by lia. simpl.
  apply app_nil_r.
Qed.

(** X5: the title and the description are read from the first five rows
    only: rows added after a grid of five or more rows change neither. *)
Theorem metadata_reads_first_five_rows (g more : grid) :
  5 <= List.length g ->
  exists doc doc',
    parseExcelToSoW (Some g) = Ok doc /\
    parseExcelToSoW (Some (g ++ more)) = Ok doc' /\
    doc_title doc' = doc_title doc /\
    doc_description doc' = doc_description doc.
Proof.
  intros H.
  assert (E : scanMetadata (g ++ more) = scanMetadata g).
  { unfold scanMetadata. fold (metadataWindow (g ++ more)).
    fold (metadataWindow g). rewrite metadataWindow_app by assumption.
    reflexivity. }
  destruct g as [|r g]; [simpl in H; lia|].
  unfold parseExcelToSoW. cbn [app]. change (r :: g ++ more) with ((r :: g) ++ more).
  rewrite E. destruct (scanMetadata (r :: g)) as [t d].
  eexists _, _. repeat split.
Qed.

Lemma metadata_reads_first_five_rows_witness :
  exists doc doc',
    parseExcelToSoW (Some grid_two_titles) = Ok doc /\
    parseExcelToSoW (Some (grid_two_titles ++ grid_two_descriptions))
      = Ok doc' /\
    doc_title doc' = doc_title doc /\
    doc_description doc' = doc_description doc.
Proof.
  apply (metadata_reads_first_five_rows grid_two_titles grid_two_descriptions).
  simpl. lia.
Defined.

Lemma lastMatching_none (p q : row -> bool) (rows : list row) :
  (forall r, p r = true -> q r = true) ->
  forallb (fun r => negb (q r)) rows = true ->
  lastMatching p rows = None.
Proof.
  intros Hpq H. unfold lastMatching.
  destruct (find p (rev rows)) as [r|] eqn:E; [|reflexivity].
  apply find_some in E. destruct E as [Hin Hp].
  apply in_rev in Hin. rewrite forallb_forall in H.
  apply H in Hin. rewrite (Hpq _ Hp) in Hin. discriminate.
Qed.

Lemma setsTitle_keyword (r : row) :
  setsTitle r = true -> hasMetadataKeyword r = true.
Proof.
  unfold setsTitle, hasMetadataKeyword.
  destruct (cell_at r 0); try discriminate.
  intros H. apply andb_true_iff in H. destruct H as [-> _]. reflexivity.
Qed.

Lemma setsDescription_keyword (r : row) :
  setsDescription r = true -> hasMetadataKeyword r = true.
Proof.
  unfold setsDescription, hasMetadataKeyword.
  destruct (cell_at r 0); try discriminate.
  intros H. apply andb_true_iff in H. destruct H as [H _].
  apply andb_true_iff in H. destruct H as [_ ->]. apply orb_true_r.
Qed.

(** X6: when cell 0 of none of the rows read by the metadata scan is a
    string containing title, project or description, the result carries
    the default title and the default description. *)
Theorem defaults_without_metadata_keyword (h : row) (g : grid) :
  forallb (fun r => negb (hasMetadataKeyword r)) (metadataWindow (h :: g))
    = true ->
  exists chs,
    parseExcelToSoW (Some (h :: g)) =
      Ok {| doc_title := js "Imported SoW Document";
            doc_description := js "Imported from Excel file";
            doc_chapters := chs |}.
Proof.
  intros H. unfold parseExcelToSoW, scanMetadata.
  fold (metadataWindow (h :: g)). rewrite fold_meta_row_last.
  rewrite (lastMatching_none _ _ _ setsTitle_keyword H).
  rewrite (lastMatching_none _ _ _ setsDescription_keyword H).
  eexists. reflexivity.
Qed.

Lemma defaults_without_metadata_keyword_witness :
  exists chs,
    parseExcelToSoW (Some grid_bullets) =
      Ok {| doc_title := js "Imported SoW Document";
            doc_description := js "Imported from Excel file";
            doc_chapters := chs |}.
Proof.
  apply (defaults_without_metadata_keyword [txt "H"] (tl grid_bullets)).
  reflexivity.
Defined.

(** ** Closed chapters stay as they are *)

Lemma prefixOf_refl (A : Type) (l : list A) : prefixOf l l.
Proof. exists []. rewrite app_nil_r. reflexivity. Qed.

Lemma prefixOf_trans (A : Type) (l1 l2 l3 : list A) :
  prefixOf l1 l2 -> prefixOf l2 l3 -> prefixOf l1 l3.
Proof.
  intros [a ->] [b ->]. exists (a ++ b). rewrite app_assoc. reflexivity.
Qed.

Lemma prefixOf_flush (chs : list chapter) (cur : option chapter) :
  prefixOf chs (flush chs cur).
Proof.
  destruct cur as [c|]; simpl; [exists [c]; reflexivity | apply prefixOf_refl].
Qed.

Lemma removelast_flush_prefix (chs : list chapter) (cur : option chapter) :
  prefixOf (removelast (flush chs cur)) chs.
Proof.
  destruct cur as [c|]; simpl.
  - rewrite removelast_last. apply prefixOf_refl.
  - destruct chs as [|a chs]; [apply prefixOf_refl|].
    exists [last (a :: chs) a]. apply app_removelast_last. discriminate.
Qed.

Lemma scan_row_chapters_prefix (st : scan_state) (r : row) :
  prefixOf (chapters st) (chapters (scan_row st r)).
Proof.
  unfold scan_row.
  destruct (truthy (cell_at r 0)); simpl; [|apply prefixOf_refl].
  destruct (isChapterStart _); simpl; [apply prefixOf_flush|].
  destruct (currentChapter st); [|apply prefixOf_refl].
  destruct (nonempty _); [|apply prefixOf_refl].
  destruct (isSubchapterStart _); apply prefixOf_refl.
Qed.

Lemma fold_scan_chapters_prefix (rows : list row) (st : scan_state) :
  prefixOf (chapters st) (chapters (fold_left scan_row rows st)).
Proof.
  revert st. induction rows as [|r rows IH]; intros st; simpl.
  - apply prefixOf_refl.
  - eapply prefixOf_trans; [apply scan_row_chapters_prefix | apply IH].
Qed.

(** X7: rows added at the end of a grid leave every chapter but the last
    one as it was: the scanned chapters of the shorter grid, without the
    last, are an initial segment of the scanned chapters of the longer
    grid. *)
Theorem closed_chapters_are_kept (h : row) (pre post : list row) :
  prefixOf (removelast (scannedChapters (h :: pre)))
           (scannedChapters (h :: pre ++ post)).
Proof.
  unfold scannedChapters, scanBody. simpl. rewrite fold_left_app.
  set (st1 := fold_left scan_row pre initial_state).
  eapply prefixOf_trans; [apply removelast_flush_prefix|].
  eapply prefixOf_trans; [apply (fold_scan_chapters_prefix post)|].
  apply prefixOf_flush.
Qed.

(** ** Ids are unique *)

Lemma digits_of_uint_inj (u v : Decimal.uint) :
  digits_of_uint u = digits_of_uint v -> u = v.
Proof.
  revert v. induction u; intros v; destruct v; simpl; intros E;
    try discriminate; try reflexivity;
    injection E as E; f_equal; auto.
Qed.

Lemma String_nat_inj (n m : nat) : String_nat n = String_nat m -> n = m.
Proof.
  unfold String_nat. intros E. apply digits_of_uint_inj in E.
  apply DecimalNat.Unsigned.to_uint_inj. assumption.
Qed.

Lemma NoDup_map_inj (A B : Type) (f : A -> B) (l : list A) :
  (forall x y, f x = f y -> x = y) -> NoDup l -> NoDup (map f l).
Proof.
  intros Hf. induction 1 as [|a l Hn _ IH]; simpl; constructor;
    [|assumption].
  intros Hin. apply in_map_iff in Hin. destruct Hin as (x & E & Hx).
  apply Hf in E. subst x. contradiction.
Qed.

Lemma chapterIds_NoDup (chs : list chapter) :
  chapterIdsSequential chs -> NoDup (map id chs).
Proof.
  unfold chapterIdsSequential. intros ->.
  apply NoDup_map_inj; [apply String_nat_inj | apply seq_NoDup].
Qed.

Lemma subchapterIds_NoDup (c : chapter) :
  subchapterIdsSequential c -> NoDup (map sub_id (subchapters c)).
Proof.
  unfold subchapterIdsSequential. intros ->.
  apply NoDup_map_inj; [|apply seq_NoDup].
  intros x y E. apply app_inv_head in E. apply app_inv_head in E.
  apply String_nat_inj. assumption.
Qed.

(** X8: in the result for any grid with at least one row, no two chapters
    have the same id, and within a chapter no two subchapters have the
    same id. *)
Theorem ids_are_unique (h : row) (body : list row) :
  exists doc,
    parseExcelToSoW (Some (h :: body)) = Ok doc /\
    NoDup (map id (doc_chapters doc)) /\
    Forall (fun c => NoDup (map sub_id (subchapters c))) (doc_chapters doc).
Proof.
  unfold parseExcelToSoW. destruct (scanMetadata (h :: body)) as [t d].
  eexists. split; [reflexivity|]. simpl.
  destruct (scanBody_inv (h :: body)) as [Hids _ Hsubs _].
  fold (scannedChapters (h :: body)) in Hids, Hsubs.
  destruct (scannedChapters (h :: body)) as [|c chs] eqn:E; simpl.
  - split; [repeat constructor; auto|]. repeat constructor.
  - split; [apply (chapterIds_NoDup (c :: chs)); assumption|].
    eapply Forall_impl; [|exact Hsubs]. apply subchapterIds_NoDup.
Qed.

(** * The in-memory storage *)

(** ** Map *)

Section MapFacts.

Context {V : Type}.
Implicit Types (m : jsmap V) (k : Z) (v : V).

Lemma map_get_set_same m k v : map_get (map_set m k v) k = Some v.
Proof.
  induction m as [|[k' v'] m IH]; simpl.
  - rewrite Z.eqb_refl. reflexivity.
  - destruct (k' =? k)%Z eqn:E; simpl.
    + rewrite Z.eqb_refl. reflexivity.
    + rewrite E. assumption.
Qed.

Lemma map_get_set_other m k v k' :
  k' <> k -> map_get (map_set m k v) k' = map_get m k'.
Proof.
  intros Hne. induction m as [|[k0 v0] m IH]; simpl.
  - destruct (k =? k')%Z eqn:E; [apply Z.eqb_eq in E; congruence|].
    reflexivity.
  - destruct (k0 =? k)%Z eqn:E; simpl.
    + apply Z.eqb_eq in E. subst k0.
      destruct (k =? k')%Z eqn:E'; [apply Z.eqb_eq in E'; congruence|].
      reflexivity.
    + rewrite IH. reflexivity.
Qed.

Lemma map_get_none_keys m k : map_get m k = None <-> ~ In k (map_keys m).
Proof.
  induction m as [|[k' v'] m IH]; simpl.
  - split; auto.
  - destruct (k' =? k)%Z eqn:E.
    + apply Z.eqb_eq in E. split; [discriminate | intros H; exfalso; auto].
    + apply Z.eqb_neq in E. rewrite IH. split; [intros H [H'|H']; auto | auto].
Qed.

Lemma map_set_fresh m k v :
  map_get m k = None -> map_set m k v = m ++ [(k, v)].
Proof.
  induction m as [|[k' v'] m IH]; simpl; [reflexivity|].
  destruct (k' =? k)%Z; [discriminate|]. intros H. rewrite IH by assumption.
  reflexivity.
Qed.

Lemma map_keys_set_present m k v v0 :
  map_get m k = Some v0 -> map_keys (map_set m k v) = map_keys m.
Proof.
  induction m as [|[k' v'] m IH]; simpl; [discriminate|].
  destruct (k' =? k)%Z eqn:E; simpl.
  - apply Z.eqb_eq in E. subst. reflexivity.
  - intros H. rewrite IH by assumption. reflexivity.
Qed.

Lemma map_get_remove_other m k k' :
  k' <> k -> map_get (map_remove m k) k' = map_get m k'.
Proof.
  intros Hne. induction m as [|[k0 v0] m IH]; simpl; [reflexivity|].
  destruct (k0 =? k)%Z eqn:E; simpl.
  - apply Z.eqb_eq in E. subst k0.
    destruct (k =? k')%Z eqn:E'; [apply Z.eqb_eq in E'; congruence|].
    reflexivity.
  - rewrite IH. reflexivity.
Qed.

Lemma map_keys_remove_incl m k x :
  In x (map_keys (map_remove m k)) -> In x (map_keys m).
Proof.
  induction m as [|[k0 v0] m IH]; simpl; [auto|].
  destruct (k0 =? k)%Z; simpl; [auto|]. intros [H|H]; auto.
Qed.

Lemma map_keys_remove_nodup m k :
  NoDup (map_keys m) -> NoDup (map_keys (map_remove m k)).
Proof.
  induction m as [|[k0 v0] m IH]; simpl; [auto|].
  intros H. inversion H as [|? ? Hn Hd]; subst.
  destruct (k0 =? k)%Z; simpl; [assumption|].
  constructor; [|auto]. intros Hin. apply Hn.
  eapply map_keys_remove_incl. eassumption.
Qed.

Lemma map_get_remove_same m k :
  NoDup (map_keys m) -> map_get (map_remove m k) k = None.
Proof.
  induction m as [|[k0 v0] m IH]; simpl; [reflexivity|].
  intros H. inversion H as [|? ? Hn Hd]; subst.
  destruct (k0 =? k)%Z eqn:E; simpl.
  - apply Z.eqb_eq in E. subst k0. apply map_get_none_keys. assumption.
  - rewrite E. auto.
Qed.

Lemma map_remove_absent m k : map_get m k = None -> map_remove m k = m.
Proof.
  induction m as [|[k0 v0] m IH]; simpl; [reflexivity|].
  destruct (k0 =? k)%Z; [discriminate|]. intros H. rewrite IH by assumption.
  reflexivity.
Qed.

(** ** The invariant of a map and its counter *)

Lemma table_inv_fresh m next : table_inv m next -> map_get m next = None.
Proof.
  intros [_ Hb _]. apply map_get_none_keys. intros Hin.
  rewrite Forall_forall in Hb. apply Hb in Hin. lia.
Qed.

Lemma table_inv_create m next v :
  table_inv m next -> table_inv (map_set m next v) (next + 1).
Proof.
  intros H. pose proof (table_inv_fresh _ _ H) as Hf.
  destruct H as [Hn Hb Hd]. rewrite (map_set_fresh _ _ _ Hf).
  split; [lia | |]; unfold map_keys in *; rewrite map_app; simpl.
  - apply Forall_app. split.
    + eapply Forall_impl; [|exact Hb]. simpl. intros; lia.
    + repeat constructor; lia.
  - apply NoDup_app; [assumption | repeat constructor; auto |].
    intros x Hx [<-|[]]. apply map_get_none_keys in Hf. contradiction.
Qed.

Lemma table_inv_update m next k v v0 :
  map_get m k = Some v0 -> table_inv m next -> table_inv (map_set m k v) next.
Proof.
  intros Hk [Hn Hb Hd].
  split; [assumption | |]; rewrite (map_keys_set_present _ _ _ _ Hk);
    assumption.
Qed.

Lemma table_inv_remove m next k :
  table_inv m next -> table_inv (map_remove m k) next.
Proof.
  intros [Hn Hb Hd].
  split; [assumption | | apply map_keys_remove_nodup; assumption].
  rewrite Forall_forall in *. intros x Hx. apply Hb.
  eapply map_keys_remove_incl. eassumption.
Qed.

End MapFacts.

(** ** The invariant of the storage *)

Lemma storage_inv_new (now : Date) : storage_inv (newMemStorage now).
Proof.
  split; simpl; split; simpl; try lia;
    repeat constructor; simpl; auto; lia.
Qed.

Lemma afterCall_inv (st : MemStorage) (call : storageCall) :
  storage_inv st -> storage_inv (afterCall st call).
Proof.
  intros [Hu Hd Ht]. destruct call; simpl.
  - split; simpl; auto using table_inv_create.
  - unfold updateUser. destruct (map_get (users st) id0) eqn:E; simpl;
      split; simpl; eauto using table_inv_update.
  - split; simpl; auto using table_inv_remove.
  - split; simpl; auto using table_inv_create.
  - unfold updateDocument. destruct (map_get (documents st) id0) eqn:E; simpl;
      split; simpl; eauto using table_inv_update.
  - split; simpl; auto using table_inv_remove.
  - split; simpl; auto using table_inv_create.
  - unfold updateTemplate. destruct (map_get (templates st) id0) eqn:E; simpl;
      split; simpl; eauto using table_inv_update.
  - split; simpl; auto using table_inv_remove.
  - unfold incrementTemplateUsage.
    destruct (map_get (templates st) id0) eqn:E; simpl;
      split; simpl; eauto using table_inv_update.
Qed.

Lemma afterCalls_inv (calls : list storageCall) (st : MemStorage) :
  storage_inv st -> storage_inv (afterCalls st calls).
Proof.
  revert st. induction calls as [|c calls IH]; intros st H; simpl; auto.
  apply IH, afterCall_inv, H.
Qed.

Lemma reachable_inv (st : MemStorage) : reachable st -> storage_inv st.
Proof.
  intros (now & calls & ->). apply afterCalls_inv, storage_inv_new.
Qed.

(** X9: in every storage reached from a new one by any sequence of calls,
    the keys of each map are distinct and lie from 1 up to, and not
    including, the counter that gives the next id. *)
Theorem reachable_keys_below_counter (now : Date) (calls : list storageCall) :
  let st := afterCalls (newMemStorage now) calls in
  (NoDup (map_keys (users st)) /\
   Forall (fun k => (1 <= k < currentUserId st)%Z) (map_keys (users st))) /\
  (NoDup (map_keys (documents st)) /\
   Forall (fun k => (1 <= k < currentDocumentId st)%Z)
          (map_keys (documents st))) /\
  (NoDup (map_keys (templates st)) /\
   Forall (fun k => (1 <= k < currentTemplateId st)%Z)
          (map_keys (templates st))).
Proof.
  intros st.
  destruct (afterCalls_inv calls _ (storage_inv_new now))
    as [[_ Hu1 Hu2] [_ Hd1 Hd2] [_ Ht1 Ht2]].
  repeat split; assumption.
Qed.

(** ** Creating records *)

Lemma addedFresh_create {R : Type} (m : jsmap R) (next : Z) (r : R) :
  table_inv m next -> addedFresh m (map_set m next r) next r.
Proof.
  intros H. pose proof (table_inv_fresh _ _ H) as Hf.
  split; [assumption|]. split; [apply map_get_set_same|]. split.
  - intros k' Hk. apply map_get_set_other. assumption.
  - rewrite (map_set_fresh _ _ _ Hf). unfold map_values.
    rewrite map_app. reflexivity.
Qed.

(** X10: in every reachable storage, creating a user, a document or a
    template stores the new record under an id that no record of the map
    has yet: the record is found under its id, every other lookup is as
    before, and the record is last in the listing. *)
Theorem create_adds_fresh_record (st : MemStorage) :
  reachable st ->
  (forall u now,
     let r := createUser st u now in
     addedFresh (users st) (users (snd r)) (user_id (fst r)) (fst r)) /\
  (forall d now,
     let r := createDocument st d now in
     addedFresh (documents st) (documents (snd r))
                (document_id (fst r)) (fst r)) /\
  (forall t now,
     let r := createTemplate st t now in
     addedFresh (templates st) (templates (snd r))
                (template_id (fst r)) (fst r)).
Proof.
  intros H. apply reachable_inv in H. destruct H as [Hu Hd Ht].
  split; [|split]; intros; simpl; apply addedFresh_create; assumption.
Qed.

Lemma create_adds_fresh_record_witness :
  let r := createDocument (newMemStorage 0%N) sampleDocument 7%N in
  addedFresh (documents (newMemStorage 0%N)) (documents (snd r))
             (document_id (fst r)) (fst r).
Proof.
  apply (proj1 (proj2 (create_adds_fresh_record (newMemStorage 0%N)
                         (ex_intro _ 0%N (ex_intro _ [] eq_refl))))).
Defined.

(** ** Ids are not given twice *)

Lemma afterCall_counters (st : MemStorage) (call : storageCall) :
  (currentUserId st <= currentUserId (afterCall st call))%Z /\
  (currentDocumentId st <= currentDocumentId (afterCall st call))%Z /\
  (currentTemplateId st <= currentTemplateId (afterCall st call))%Z.
Proof.
  destruct call;
    unfold afterCall, updateUser, updateDocument, updateTemplate,
           incrementTemplateUsage;
    repeat match goal with
           | |- context [match map_get ?m ?k with _ => _ end] =>
               destruct (map_get m k)
           end;
    simpl; lia.
Qed.

Lemma afterCalls_counters (calls : list storageCall) (st : MemStorage) :
  (currentUserId st <= currentUserId (afterCalls st calls))%Z /\
  (currentDocumentId st <= currentDocumentId (afterCalls st calls))%Z /\
  (currentTemplateId st <= currentTemplateId (afterCalls st calls))%Z.
Proof.
  unfold afterCalls. revert st.
  induction calls as [|c calls IH]; intros st; simpl; [lia|].
  specialize (IH (afterCall st c)).
  pose proof (afterCall_counters st c). lia.
Qed.

(** X11: an id is given once: whatever calls follow the creation of a
    user, a document or a template (deletions included), a record of the
    same kind created later gets a greater id. *)
Theorem later_record_gets_greater_id
  (st : MemStorage) (calls : list storageCall) :
  (forall u now u' now',
     let first := createUser st u now in
     (user_id (fst first) <
      user_id (fst (createUser (afterCalls (snd first) calls) u' now')))%Z) /\
  (forall d now d' now',
     let first := createDocument st d now in
     (document_id (fst first) <
      document_id
        (fst (createDocument (afterCalls (snd first) calls) d' now')))%Z) /\
  (forall t now t' now',
     let first := createTemplate st t now in
     (template_id (fst first) <
      template_id
        (fst (createTemplate (afterCalls (snd first) calls) t' now')))%Z).
Proof.
  split; [|split]; intros; simpl;
    match goal with
    | |- context [afterCalls ?s calls] =>
        pose proof (afterCalls_counters calls s) as H; simpl in H; lia
    end.
Qed.

(** ** Updating a document *)

(** X12: updateDocument on an id without a document returns undefined and
    leaves the storage as it is.  On an id with a document it returns the
    updated document and stores it under the same key, in the same place
    of the listing; updatedAt is the time of the call whatever the
    updates carry, and the id written in the record is the one the updates
    carry, if any, while the key stays; other documents are untouched. *)
Theorem updateDocument_effect
  (st : MemStorage) (id : Z) (updates : PartialDocument) (now : Date) :
  match getDocument st id with
  | None => updateDocument st id updates now = (None, st)
  | Some d =>
      exists d',
        fst (updateDocument st id updates now) = Some d' /\
        getDocument (snd (updateDocument st id updates now)) id = Some d' /\
        updatedAt d' = Some now /\
        document_id d' = spread (set_document_id updates) (document_id d) /\
        map_keys (documents (snd (updateDocument st id updates now))) =
          map_keys (documents st) /\
        forall k, k <> id ->
          getDocument (snd (updateDocument st id updates now)) k =
          getDocument st k
  end.
Proof.
  unfold getDocument, updateDocument.
  destruct (map_get (documents st) id) as [d|] eqn:E; [|reflexivity].
  eexists. simpl. split; [reflexivity|].
  split; [apply map_get_set_same|]. split; [reflexivity|].
  split; [reflexivity|].
  split; [eapply map_keys_set_present; eassumption|].
  intros k Hk. apply map_get_set_other. assumption.
Qed.

(** After an update that carries the id 9, the document created under
    key 1 is still found under key 1 and has 9 as its id. *)
Example updateDocument_keeps_key :
  let st := snd (createDocument (newMemStorage 0%N) sampleDocument 1%N) in
  let st' := snd (updateDocument st 1 (onlyDocumentId 9) 2%N) in
  option_map document_id (getDocument st' 1) = Some 9%Z /\
  option_map updatedAt (getDocument st' 1) = Some (Some 2%N) /\
  getDocument st' 9 = None.
Proof. repeat split. Qed.

(** ** Deleting records *)

Lemma removedKey_remove {R : Type} (m : jsmap R) (next k : Z) :
  table_inv m next -> removedKey m (map_remove m k) k (map_has m k).
Proof.
  intros [_ _ Hd]. split; [reflexivity|].
  split; [apply map_get_remove_same; assumption|].
  intros k' Hk. apply map_get_remove_other. assumption.
Qed.

(** X13: in every reachable storage, deleting a user, a document or a
    template by id returns whether the id had a record; afterwards the id
    has none, every other lookup is as before, and deleting the same id
    again returns false. *)
Theorem delete_removes_record (st : MemStorage) (id : Z) :
  reachable st ->
  (removedKey (users st) (users (snd (deleteUser st id))) id
              (fst (deleteUser st id)) /\
   fst (deleteUser (snd (deleteUser st id)) id) = false) /\
  (removedKey (documents st) (documents (snd (deleteDocument st id))) id
              (fst (deleteDocument st id)) /\
   fst (deleteDocument (snd (deleteDocument st id)) id) = false) /\
  (removedKey (templates st) (templates (snd (deleteTemplate st id))) id
              (fst (deleteTemplate st id)) /\
   fst (deleteTemplate (snd (deleteTemplate st id)) id) = false).
Proof.
  intros H. apply reachable_inv in H. destruct H as [Hu Hd Ht].
  split; [|split]; simpl.
  - split; [eapply removedKey_remove; eassumption|].
    unfold map_has. destruct Hu as [_ _ Hn].
    rewrite (map_get_remove_same _ _ Hn). reflexivity.
  - split; [eapply removedKey_remove; eassumption|].
    unfold map_has. destruct Hd as [_ _ Hn].
    rewrite (map_get_remove_same _ _ Hn). reflexivity.
  - split; [eapply removedKey_remove; eassumption|].
    unfold map_has. destruct Ht as [_ _ Hn].
    rewrite (map_get_remove_same _ _ Hn). reflexivity.
Qed.

Lemma delete_removes_record_witness :
  removedKey (users (newMemStorage 0%N))
             (users (snd (deleteUser (newMemStorage 0%N) 1))) 1
             (fst (deleteUser (newMemStorage 0%N) 1)) /\
  fst (deleteUser (snd (deleteUser (newMemStorage 0%N) 1)) 1) = false.
Proof.
  apply (proj1 (delete_removes_record (newMemStorage 0%N) 1
                  (ex_intro _ 0%N (ex_intro _ [] eq_refl)))).
Defined.

(** ** Looking a user up by e-mail *)

Lemma string_eqb_eq (a b : jsstring) : string_eqb a b = true <-> a = b.
Proof.
  revert b. induction a as [|x a IH]; intros [|y b]; simpl;
    try (split; [discriminate | discriminate]); [split; reflexivity|].
  rewrite andb_true_iff, N.eqb_eq, IH.
  split; [intros [-> ->]; reflexivity | intros E; injection E; auto].
Qed.

Lemma find_app_some (A : Type) (p : A -> bool) (l l' : list A) (x : A) :
  find p l = Some x -> find p (l ++ l') = Some x.
Proof.
  induction l as [|a l IH]; simpl; [discriminate|].
  destruct (p a); auto.
Qed.

(** X14: getUserByEmail returns a stored user whose e-mail is the one asked
    for, and undefined only when no stored user has it; and in a reachable
    storage the user it returns for an e-mail stays the answer after any
    further user is created, also one with the same e-mail. *)
Theorem getUserByEmail_first_match (st : MemStorage) (e : jsstring) :
  match getUserByEmail st e with
  | Some u =>
      In u (getAllUsers st) /\ email u = e /\
      (reachable st ->
       forall ins now,
         getUserByEmail (snd (createUser st ins now)) e = Some u)
  | None => forall u, In u (getAllUsers st) -> email u <> e
  end.
Proof.
  unfold getUserByEmail, getAllUsers.
  destruct (find _ (map_values (users st))) as [u|] eqn:E.
  - pose proof (find_some _ _ E) as [Hin He].
    apply string_eqb_eq in He. split; [assumption|]. split; [assumption|].
    intros Hr ins now. apply reachable_inv in Hr. destruct Hr as [Hu _ _].
    simpl. rewrite (map_set_fresh _ _ _ (table_inv_fresh _ _ Hu)).
    unfold map_values in *. rewrite map_app.
    apply find_app_some. assumption.
  - intros u Hin He. apply (find_none _ _ E) in Hin.
    apply string_eqb_eq in He. congruence.
Qed.

(** In a new storage the admin user answers to its e-mail, and still does
    once a second user with the same e-mail is created. *)
Example getUserByEmail_admin :
  option_map user_id
    (getUserByEmail (newMemStorage 0%N) (js "admin@example.com")) = Some 1%Z
  /\
  option_map user_id
    (getUserByEmail (snd (createUser (newMemStorage 0%N) sampleUser 3%N))
                    (js "admin@example.com")) = Some 1%Z.
Proof. split; reflexivity. Qed.

(** ** Counting the uses of a template *)

Lemma nextUsage_of_nat (n : nat) :
  nextUsage (Some (Z.of_nat n)) = Z.of_nat (S n).
Proof.
  unfold nextUsage. destruct (Z.of_nat n =? 0)%Z eqn:E.
  - apply Z.eqb_eq in E. lia.
  - lia.
Qed.

(** X15: a template is created with usage count 0, and after n calls of
    incrementTemplateUsage on its id, with nothing else in between, it is
    the same template with usage count n; on an id without a template the
    call changes nothing. *)
Theorem template_usage_counts_calls
  (st : MemStorage) (t : InsertTemplate) (now : Date) (n : nat) :
  let created := fst (createTemplate st t now) in
  let key := template_id created in
  getTemplate
    (Nat.iter n (fun s => incrementTemplateUsage s key)
              (snd (createTemplate st t now))) key
    = Some (usedTemplate created n) /\
  (forall id, getTemplate st id = None -> incrementTemplateUsage st id = st).
Proof.
  simpl. split.
  - induction n as [|n IH]; simpl.
    + unfold getTemplate. simpl. apply map_get_set_same.
    + unfold incrementTemplateUsage at 1. unfold getTemplate in IH.
      rewrite IH. unfold getTemplate. simpl.
      rewrite map_get_set_same. unfold usedTemplate.
      cbn [usageCount template_id template_name template_description
           template_content template_type template_authorId
           template_createdAt].
      pose proof (nextUsage_of_nat n) as Hn. unfold nextUsage in Hn.
      rewrite Hn. reflexivity.
  - intros id H. unfold incrementTemplateUsage, getTemplate in *.
    rewrite H. reflexivity.
Qed.

(** * The routes *)

(** ** Importing a grid *)

Lemma result_ids_sequential (h : row) (body : list row) :
  chapterIdsSequential
    (withFallback (h :: body) (scannedChapters (h :: body))) /\
  Forall subchapterIdsSequential
    (withFallback (h :: body) (scannedChapters (h :: body))).
Proof.
  destruct (scanBody_inv (h :: body)) as [Hids _ Hsubs _].
  fold (scannedChapters (h :: body)) in Hids, Hsubs.
  destruct (scannedChapters (h :: body)) as [|c chs]; simpl.
  - split; [reflexivity|]. repeat constructor.
  - split; assumption.
Qed.

(** X16: an upload with a file, an author id other than 0 and NaN, and a
    sheet of at least one row is answered with a new document that is
    stored under its id: a draft of type sow by that author, with the
    title and description the parser found and a content of at least one
    chapter; the users and templates of the storage are untouched. *)
Theorem importExcel_stores_draft
  (a : Z) (h : row) (body : list row) (st : MemStorage) (now : Date) :
  a <> 0%Z ->
  exists doc st' parsed,
    importExcel true (Some a) (Rows (h :: body)) st now = (Json doc, st') /\
    parseExcelToSoW (Some (h :: body)) = Ok parsed /\
    getDocument st' (document_id doc) = Some doc /\
    document_title doc = doc_title parsed /\
    document_description doc = Some (doc_description parsed) /\
    document_content doc = Chapters (doc_chapters parsed) /\
    doc_chapters parsed <> [] /\
    document_type doc = js "sow" /\
    document_status doc = Some (js "draft") /\
    authorId doc = a /\
    createdAt doc = Some now /\
    users st' = users st /\ templates st' = templates st.
Proof.
  intros Ha. unfold importExcel. cbn [negb].
  destruct (a =? 0)%Z eqn:E; [apply Z.eqb_eq in E; contradiction|].
  unfold parseExcelToSoW. destruct (scanMetadata (h :: body)) as [t d].
  eexists _, _, _. split; [reflexivity|]. split; [reflexivity|].
  split; [apply map_get_set_same|]. simpl.
  repeat split; try reflexivity. apply withFallback_nonempty.
Qed.

Lemma importExcel_stores_draft_witness :
  exists doc st' parsed,
    importExcel true (Some 1%Z) (Rows ([txt "H"] :: tl grid_bullets))
                (newMemStorage 0%N) 5%N = (Json doc, st') /\
    parseExcelToSoW (Some ([txt "H"] :: tl grid_bullets)) = Ok parsed /\
    getDocument st' (document_id doc) = Some doc /\
    document_title doc = doc_title parsed /\
    document_description doc = Some (doc_description parsed) /\
    document_content doc = Chapters (doc_chapters parsed) /\
    doc_chapters parsed <> [] /\
    document_type doc = js "sow" /\
    document_status doc = Some (js "draft") /\
    authorId doc = 1%Z /\
    createdAt doc = Some 5%N /\
    users st' = users (newMemStorage 0%N) /\
    templates st' = templates (newMemStorage 0%N).
Proof.
  apply (importExcel_stores_draft 1 [txt "H"] (tl grid_bullets)
           (newMemStorage 0%N) 5%N).
  discriminate.
Defined.

(** X17: in a reachable storage an upload is refused without a change of
    the storage: with 400 when the file is missing or the author id is 0
    or NaN, with 500 and the message of the exception when reading the
    file throws (Failed to import Excel file when it has no message), and
    with 500 and the message Empty Excel file when the sheet has no row;
    in every other case it is answered with the new document, which is
    added at the end of the listing of documents. *)
Theorem importExcel_outcome
  (hasFile : bool) (authorId : option Z) (sheet : sheetRead)
  (st : MemStorage) (now : Date) :
  reachable st ->
  importOutcome hasFile authorId sheet st
                (importExcel hasFile authorId sheet st now).
Proof.
  intros Hr. apply reachable_inv in Hr. destruct Hr as [_ Hd _].
  unfold importExcel, importOutcome.
  destruct hasFile; cbn [negb]; [|auto 6].
  destruct authorId as [a|]; [|split; auto 8].
  destruct (a =? 0)%Z eqn:E.
  - apply Z.eqb_eq in E. subst a. split; auto 8.
  - assert (Ha : exists a', Some a = Some a' /\ a' <> 0%Z)
      by (exists a; split; [reflexivity | apply Z.eqb_neq; assumption]).
    destruct sheet as [[|r g]|message].
    + simpl. split; [reflexivity|]. right. right. left. auto 8.
    + unfold parseExcelToSoW. destruct (scanMetadata (r :: g)) as [t d].
      cbn -[map_set]. unfold getAllDocuments. simpl.
      split; [reflexivity|]. split; [assumption|].
      split; [exists r, g; reflexivity|].
      rewrite (map_set_fresh _ _ _ (table_inv_fresh _ _ Hd)).
      unfold map_values. rewrite map_app. reflexivity.
    + split; [reflexivity|]. right. right. right.
      split; [reflexivity|]. split; [reflexivity|]. split; [assumption|].
      exists message. split; reflexivity.
Qed.

Lemma importExcel_outcome_witness :
  importOutcome true (Some 1%Z) (ReadThrows (js "Unsupported file"))
                (newMemStorage 0%N)
                (importExcel true (Some 1%Z)
                             (ReadThrows (js "Unsupported file"))
                             (newMemStorage 0%N) 5%N).
Proof.
  apply (importExcel_outcome true (Some 1%Z)
           (ReadThrows (js "Unsupported file")) (newMemStorage 0%N) 5%N).
  exists 0%N, []. reflexivity.
Defined.

(** ** Exporting a document *)

Lemma textsOfSize_app (size : Z) (l l' : list textCall) :
  textsOfSize size (l ++ l') = textsOfSize size l ++ textsOfSize size l'.
Proof. unfold textsOfSize. rewrite filter_app, map_app. reflexivity. Qed.

Lemma textsOfSize_cons (size : Z) (c : textCall) (l : list textCall) :
  textsOfSize size (c :: l) =
  (if (call_fontSize c =? size)%Z then [call_text c] else []) ++
  textsOfSize size l.
Proof.
  unfold textsOfSize. simpl. destruct (call_fontSize c =? size)%Z; reflexivity.
Qed.

Lemma renderSubchapters_cons
  (index subIndex : nat) (s : subchapter) (rest : list subchapter)
  (yPosition : Z) :
  renderSubchapters index subIndex (s :: rest) yPosition =
  (subchapterCalls index subIndex s yPosition ++
   fst (renderSubchapters index (S subIndex) rest
          (afterSubchapter s yPosition)),
   snd (renderSubchapters index (S subIndex) rest
          (afterSubchapter s yPosition))).
Proof. simpl. destruct (renderSubchapters _ _ _ _). reflexivity. Qed.

Lemma renderChapters_cons
  (index : nat) (c : chapter) (rest : list chapter) (yPosition : Z) :
  renderChapters index (c :: rest) yPosition =
  (chapterCalls index c yPosition ++
   fst (renderSubchapters index 0 (subchapters c)
          (afterChapterBody c yPosition)) ++
   fst (renderChapters (S index) rest
          (snd (renderSubchapters index 0 (subchapters c)
                  (afterChapterBody c yPosition)) + 20)),
   snd (renderChapters (S index) rest
          (snd (renderSubchapters index 0 (subchapters c)
                  (afterChapterBody c yPosition)) + 20))).
Proof.
  simpl. destruct (renderSubchapters _ _ _ _).
  destruct (renderChapters _ _ _). reflexivity.
Qed.

Lemma subchapterCalls_texts (index subIndex : nat) (s : subchapter) (y : Z) :
  textsOfSize 14 (subchapterCalls index subIndex s y) =
    [String_nat (index + 1) ++ js "." ++ String_nat (subIndex + 1) ++
     js " " ++ sub_title s] /\
  textsOfSize 16 (subchapterCalls index subIndex s y) = [].
Proof.
  unfold subchapterCalls, textsOfSize.
  destruct (nonempty (sub_content s)); split; reflexivity.
Qed.

Lemma chapterCalls_texts (index : nat) (c : chapter) (y : Z) :
  textsOfSize 16 (chapterCalls index c y) =
    [String_nat (index + 1) ++ js ". " ++ title c] /\
  textsOfSize 14 (chapterCalls index c y) = [].
Proof.
  unfold chapterCalls, textsOfSize.
  destruct (nonempty (content c)); split; reflexivity.
Qed.

Lemma renderSubchapters_texts
  (subs : list subchapter) (index subIndex : nat) (yPosition : Z)
  (cid : jsstring) :
  cid = String_nat (index + 1) ->
  map sub_id subs =
    map (fun k => cid ++ js "." ++ String_nat k)
        (List.seq (S subIndex) (List.length subs)) ->
  textsOfSize 14 (fst (renderSubchapters index subIndex subs yPosition)) =
    map subchapterHeading subs /\
  textsOfSize 16 (fst (renderSubchapters index subIndex subs yPosition)) = [].
Proof.
  intros Hc. revert subIndex yPosition.
  induction subs as [|s subs IH]; intros subIndex yPosition Hids.
  - split; reflexivity.
  - cbn [map List.length List.seq] in Hids. injection Hids as Hs Hrest.
    rewrite renderSubchapters_cons. cbn [fst].
    destruct (IH (S subIndex) (afterSubchapter s yPosition) Hrest)
      as [IH14 IH16].
    destruct (subchapterCalls_texts index subIndex s yPosition) as [H14 H16].
    rewrite !textsOfSize_app, IH14, IH16, H14, H16.
    split; [|reflexivity]. cbn [map app]. f_equal.
    unfold subchapterHeading. rewrite Hs, Hc, (Nat.add_1_r subIndex).
    rewrite <- !app_assoc. reflexivity.
Qed.

Lemma renderChapters_texts
  (chs : list chapter) (index : nat) (yPosition : Z) :
  map id chs = map String_nat (List.seq (S index) (List.length chs)) ->
  Forall subchapterIdsSequential chs ->
  textsOfSize 16 (fst (renderChapters index chs yPosition)) =
    map chapterHeading chs /\
  textsOfSize 14 (fst (renderChapters index chs yPosition)) =
    flat_map (fun c => map subchapterHeading (subchapters c)) chs.
Proof.
  revert index yPosition.
  induction chs as [|c chs IH]; intros index yPosition Hids Hsubs.
  - split; reflexivity.
  - cbn [map List.length List.seq] in Hids. injection Hids as Hc Hrest.
    inversion Hsubs as [|? ? Hsc Hsubs']; subst.
    rewrite renderChapters_cons. cbn [fst].
    destruct (IH (S index)
                (snd (renderSubchapters index 0 (subchapters c)
                        (afterChapterBody c yPosition)) + 20)%Z
                Hrest Hsubs') as [IH16 IH14].
    assert (Hcid : id c = String_nat (index + 1))
      by (rewrite Nat.add_1_r; assumption).
    destruct (renderSubchapters_texts (subchapters c) index 0
                (afterChapterBody c yPosition) (id c) Hcid Hsc)
      as [S14 S16].
    destruct (chapterCalls_texts index c yPosition) as [C16 C14].
    rewrite !textsOfSize_app, IH16, IH14, S14, S16, C16, C14.
    split.
    + cbn [map app]. f_equal. unfold chapterHeading. rewrite Hcid.
      reflexivity.
    + reflexivity.
Qed.

Lemma validHeaderValue_disposition (t : jsstring) :
  validHeaderValue (dispositionOf t) = validHeaderValue t.
Proof.
  unfold validHeaderValue, dispositionOf.
  rewrite !forallb_app.
  change (forallb validHeaderChar (js "attachment; filename=")) with true.
  change (forallb validHeaderChar [34%N]) with true.
  change (forallb validHeaderChar (js ".pdf")) with true.
  cbn [andb]. rewrite !andb_true_r. reflexivity.
Qed.

Lemma renderSubchapters_no_title
  (subs : list subchapter) (i j : nat) (y : Z) :
  textsOfSize 20 (fst (renderSubchapters i j subs y)) = [].
Proof.
  revert j y. induction subs as [|s subs IH]; intros j y.
  - reflexivity.
  - rewrite renderSubchapters_cons. cbn [fst].
    rewrite textsOfSize_app, IH. unfold subchapterCalls, textsOfSize.
    destruct (nonempty (sub_content s)); reflexivity.
Qed.

Lemma renderChapters_no_title (chs : list chapter) (i : nat) (y : Z) :
  textsOfSize 20 (fst (renderChapters i chs y)) = [].
Proof.
  revert i y. induction chs as [|c chs IH]; intros i y.
  - reflexivity.
  - rewrite renderChapters_cons. cbn [fst].
    rewrite !textsOfSize_app, IH, renderSubchapters_no_title.
    unfold chapterCalls, textsOfSize.
    destruct (nonempty (content c)); reflexivity.
Qed.

(** X18: the export of an imported document, asked for by the id the
    import answered with, depends on the title the parser found.  When
    the title holds only characters a header may carry, the PDF draws the
    title at size 20, and its chapter headings (size 16) are the id of
    each chapter, a dot, a space and the chapter's title, its subchapter
    headings (size 14) the id of each subchapter, a space and its title,
    in document order: the numbers the export counts are the ids the
    import gave.  Otherwise setting the header throws and the answer is
    500, Failed to export PDF. *)
Theorem exported_headings_carry_ids
  (a : Z) (h : row) (body : list row) (st : MemStorage) (now : Date) :
  a <> 0%Z ->
  exists doc st' chs,
    importExcel true (Some a) (Rows (h :: body)) st now = (Json doc, st') /\
    document_content doc = Chapters chs /\
    if validHeaderValue (document_title doc)
    then
      exists file,
        exportPdf st' (document_id doc) = Json file /\
        textsOfSize 20 (textCalls file) = [document_title doc] /\
        textsOfSize 16 (textCalls file) = map chapterHeading chs /\
        textsOfSize 14 (textCalls file) =
          flat_map (fun c => map subchapterHeading (subchapters c)) chs
    else
      exportPdf st' (document_id doc) = Status 500 (js "Failed to export PDF").
Proof.
  intros Ha. unfold importExcel. cbn [negb].
  destruct (a =? 0)%Z eqn:E; [apply Z.eqb_eq in E; contradiction|].
  unfold parseExcelToSoW. destruct (scanMetadata (h :: body)) as [t d].
  destruct (result_ids_sequential h body) as [Hids Hsubs].
  set (chs := withFallback (h :: body) (scannedChapters (h :: body))) in *.
  eexists _, _, chs. split; [reflexivity|]. split; [reflexivity|].
  clearbody chs.
  unfold exportPdf, getDocument. cbn [createDocument snd fst documents
    document_id]. rewrite map_get_set_same.
  cbn [document_title new_title doc_title].
  rewrite validHeaderValue_disposition.
  destruct (validHeaderValue t); cbn [negb]; [|reflexivity].
  eexists. split; [reflexivity|].
  cbn [textCalls document_content document_title new_content new_title
       doc_chapters doc_title].
  destruct (renderChapters_texts chs 0 170 Hids Hsubs) as [H16 H14].
  rewrite !textsOfSize_cons, renderChapters_no_title, H16, H14.
  repeat split.
Qed.

Lemma exported_headings_carry_ids_witness :
  exists doc st' chs,
    importExcel true (Some 1%Z) (Rows ([txt "H"] :: tl grid_bullets))
                (newMemStorage 0%N) 5%N = (Json doc, st') /\
    document_content doc = Chapters chs /\
    if validHeaderValue (document_title doc)
    then
      exists file,
        exportPdf st' (document_id doc) = Json file /\
        textsOfSize 20 (textCalls file) = [document_title doc] /\
        textsOfSize 16 (textCalls file) = map chapterHeading chs /\
        textsOfSize 14 (textCalls file) =
          flat_map (fun c => map subchapterHeading (subchapters c)) chs
    else
      exportPdf st' (document_id doc) = Status 500 (js "Failed to export PDF").
Proof.
  apply (exported_headings_carry_ids 1 [txt "H"] (tl grid_bullets)
           (newMemStorage 0%N) 5%N).
  discriminate.
Defined.

(** ** The layout of the export *)







(** A stored document titled Plan, an en dash (U+2013) and A is not
    exported: the answer is 500. *)
Example exportPdf_dash_in_title :
  let st := snd (createDocument (newMemStorage 0%N)
                   {| new_title := js "Plan " ++ [8211%N] ++ js " A";
                      new_description := None; new_content := Chapters [];
                      new_type := js "sow"; new_status := None;
                      new_authorId := 1; new_templateId := None |} 1%N) in
  exportPdf st 1 = Status 500 (js "Failed to export PDF").
Proof. reflexivity. Qed.

(** ** Logging in *)

Lemma string_eqb_refl (a : jsstring) : string_eqb a a = true.
Proof. apply string_eqb_eq. reflexivity. Qed.

Lemma find_app_none (A : Type) (p : A -> bool) (l l' : list A) :
  find p l = None -> find p (l ++ l') = find p l'.
Proof.
  induction l as [|a l IH]; simpl; [reflexivity|].
  destruct (p a); [discriminate | assumption].
Qed.

(** X20: in a reachable storage, registering with an e-mail that no user
    has stores the user and answers with it without the password;
    afterwards a login with the registered e-mail and password succeeds,
    answers with the same user, and sets the stored user's lastActive to
    the time of the login. *)
Theorem register_then_login
  (st : MemStorage) (u : InsertUser) (now now' : Date) :
  reachable st ->
  getUserByEmail st (new_email u) = None ->
  exists user st1 st2,
    register st (Some u) now = (Json (withoutPassword user), st1) /\
    getUser st1 (user_id user) = Some user /\
    login st1 (new_email u) (new_password u) now' =
      (Json (withoutPassword user), st2) /\
    option_map lastActive (getUser st2 (user_id user)) = Some (Some now') /\
    option_map password (getUser st2 (user_id user)) = Some (new_password u).
Proof.
  intros Hr Hnone. apply reachable_inv in Hr. destruct Hr as [Hu _ _].
  unfold register. rewrite Hnone.
  eexists _, _, _. split; [reflexivity|].
  unfold getUser. cbn [createUser fst snd users user_id].
  split; [apply map_get_set_same|].
  unfold login.
  assert (Hfind : getUserByEmail (snd (createUser st u now)) (new_email u) =
                  Some (fst (createUser st u now))).
  { unfold getUserByEmail in *. cbn [createUser snd fst users].
    rewrite (map_set_fresh _ _ _ (table_inv_fresh _ _ Hu)).
    unfold map_values in *. rewrite map_app, (find_app_none _ _ _ _ Hnone).
    simpl. rewrite string_eqb_refl. reflexivity. }
  cbn [createUser snd fst] in Hfind. rewrite Hfind.
  cbn [password user_id]. rewrite string_eqb_refl. cbn [negb].
  split; [reflexivity|].
  unfold updateUser. cbn [users]. rewrite map_get_set_same.
  cbn [snd users]. rewrite map_get_set_same. split; reflexivity.
Qed.

Lemma register_then_login_witness :
  exists user st1 st2,
    register (newMemStorage 0%N)
             (Some {| new_username := js "eve"; new_email := js "e@x.org";
                      new_password := js "secret"; new_role := None |})
             3%N = (Json (withoutPassword user), st1) /\
    getUser st1 (user_id user) = Some user /\
    login st1 (js "e@x.org") (js "secret") 9%N =
      (Json (withoutPassword user), st2) /\
    option_map lastActive (getUser st2 (user_id user)) = Some (Some 9%N) /\
    option_map password (getUser st2 (user_id user)) = Some (js "secret").
Proof.
  apply (register_then_login (newMemStorage 0%N)
           {| new_username := js "eve"; new_email := js "e@x.org";
              new_password := js "secret"; new_role := None |} 3%N 9%N).
  - exists 0%N, []. reflexivity.
  - reflexivity.
Defined.

(** X21: in a reachable storage where an e-mail already has a user,
    register refuses a new user with that e-mail and leaves the storage
    as it is; and when such a user is stored all the same (createUser
    does not look at the e-mail), a login with that e-mail and the new
    password is refused unless the password is that of the first user. *)
Theorem duplicate_email_is_shadowed
  (st : MemStorage) (u : InsertUser) (first : User) (now now' : Date) :
  reachable st ->
  getUserByEmail st (new_email u) = Some first ->
  password first <> new_password u ->
  register st (Some u) now = (Status 400 (js "User already exists"), st) /\
  login (snd (createUser st u now)) (new_email u) (new_password u) now' =
    (Status 401 (js "Invalid credentials"), snd (createUser st u now)).
Proof.
  intros Hr Hfirst Hpw. split.
  - unfold register. rewrite Hfirst. reflexivity.
  - apply reachable_inv in Hr. destruct Hr as [Hu _ _].
    unfold login.
    assert (Hfind : getUserByEmail (snd (createUser st u now)) (new_email u)
                    = Some first).
    { unfold getUserByEmail in *. cbn [createUser snd users].
      rewrite (map_set_fresh _ _ _ (table_inv_fresh _ _ Hu)).
      unfold map_values in *. rewrite map_app.
      apply find_app_some. assumption. }
    rewrite Hfind.
    destruct (string_eqb (password first) (new_password u)) eqn:E;
      [apply string_eqb_eq in E; contradiction|].
    reflexivity.
Qed.

Lemma duplicate_email_is_shadowed_witness :
  register (newMemStorage 0%N) (Some sampleUser) 3%N =
    (Status 400 (js "User already exists"), newMemStorage 0%N) /\
  login (snd (createUser (newMemStorage 0%N) sampleUser 3%N))
        (new_email sampleUser) (new_password sampleUser) 9%N =
    (Status 401 (js "Invalid credentials"),
     snd (createUser (newMemStorage 0%N) sampleUser 3%N)).
Proof.
  apply (duplicate_email_is_shadowed (newMemStorage 0%N) sampleUser
           {| user_id := 1; username := js "admin";
              email := js "admin@example.com"; password := js "admin123";
              role := Some (js "admin"); lastActive := Some 0%N |}
           3%N 9%N).
  - exists 0%N, []. reflexivity.
  - reflexivity.
  - discriminate.
Defined.

(** ** Chapter titles *)

(** X22: every chapter of the result for a grid with at least one row has
    a title that is not empty: a row whose trimmed cell 0 is empty never
    opens a chapter, and the fallback chapter has a fixed title. *)
Theorem chapter_titles_nonempty (h : row) (body : list row) :
  exists doc,
    parseExcelToSoW (Some (h :: body)) = Ok doc /\
    Forall (fun c => title c <> []) (doc_chapters doc).
Proof.
  unfold parseExcelToSoW. destruct (scanMetadata (h :: body)) as [t d].
  eexists. split; [reflexivity|]. cbn [doc_chapters].
  assert (H : forall s, In s (map title (scannedChapters (h :: body))) ->
                        s <> []).
  { unfold scannedChapters, scanBody. rewrite fold_scan_titles. simpl.
    intros s Hs. apply in_map_iff in Hs. destruct Hs as (r & <- & Hr).
    apply filter_In in Hr. destruct Hr as [_ Hr].
    unfold startsChapter in Hr. apply andb_true_iff in Hr.
    destruct Hr as [_ Hr]. intros E. rewrite E in Hr. discriminate. }
  destruct (scannedChapters (h :: body)) as [|c l]; simpl.
  - constructor; [discriminate | constructor].
  - apply Forall_forall. intros x Hx. apply H. apply in_map. exact Hx.
Qed.

(** * Grids with rows that are not arrays *)













(** C10, counterexample to the claim as stated: the row whose cell 0 is
    the number 0 has the trimmed cell 0 "0", which begins with a digit,
    yet the guard of line 574 skips the row and no chapter is opened. *)
Lemma zero_row_opens_no_chapter : ~ alnumRowAlwaysOpensChapter.
Proof.
  intros H.
  destruct (H initial_state [zeroCell; txt "zero"] eq_refl) as [body Hb].
  vm_compute in Hb. discriminate.
Qed.
